(** * realdataint2: filters, sorting and chunked storage

  A shallow embedding of the dashboard's row filters and unique-value
  listing (views/Analytics), of the chart builder's sort step
  (components/ChartBuilder), and of the chunked record store and the
  top-N step of the aggregation engine, whose implementation files
  (utils/storage-v2.ts, utils/aggregation.ts) are described by the
  specification only. *)

From Stdlib Require Import ZArith QArith Qcanon Lia Ascii String.
From stdpp Require Import base list sorting gmap strings pretty.

Set Warnings "-clear-no-such-hyp".

Local Open Scope Z_scope.

(* ===================================================================== *)
(** ** Chunk store *)
(* ===================================================================== *)

Module Storage.

Local Open Scope nat_scope.

(** ceil(n / d), as [Math.ceil(n / d)] yields on non-negative integers. *)
Definition ceil_div (n d : nat) : nat := (n + d - 1) / d.

Section Chunks.
Context {Row : Type}.

(** Modelled from the spec: the Dataset record of the data model (its
    counts and chunk size) together with the chunks stored for it; the
    chunk at position [i] of [chunks] is the chunk of index [i]. *)
Record Dataset := mkDataset {
  chunkSize : nat;
  rowCount : nat;
  chunkCount : nat;
  chunks : list (list Row)
}.

(** Modelled from the spec: createDataset of the Metadata Store, whose
    source file is not available. It allocates an empty dataset record
    with rowCount = 0 and chunkCount = 0. *)
Definition createDataset (size : nat) : Dataset :=
  {| chunkSize := size; rowCount := 0; chunkCount := 0; chunks := [] |}.

(** Consecutive groups of [size] rows; [fuel] bounds the number of
    groups. *)
Fixpoint chunk_fuel (fuel size : nat) (rows : list Row) : list (list Row) :=
  match fuel with
  | O => []
  | S fuel' =>
      match rows with
      | [] => []
      | _ :: _ => take size rows :: chunk_fuel fuel' size (drop size rows)
      end
  end.

(** Modelled from the spec: the partition step of batchInsert, which
    splits the rows into consecutive groups of chunkSize. *)
Definition chunk_rows (size : nat) (rows : list Row) : list (list Row) :=
  chunk_fuel (length rows) size rows.

(** Modelled from the spec: batchInsert of the Chunk Store, whose source
    file is not available. It partitions the rows into consecutive
    groups of chunkSize, writes each group as a new chunk, after the chunks
    already stored, which stay as they were written, and then updates
    rowCount and chunkCount by what was written. *)
Definition batchInsert (d : Dataset) (rows : list Row) : Dataset :=
  let written := chunk_rows (chunkSize d) rows in
  {| chunkSize := chunkSize d;
     rowCount := rowCount d + length rows;
     chunkCount := chunkCount d + length written;
     chunks := chunks d ++ written |}.

(** Modelled from the spec: append of the Chunk Store, whose source file
    is not available. If the last existing chunk has spare capacity it is
    filled first; the remaining rows form new full chunks and possibly one
    final partial chunk. *)
Definition append (d : Dataset) (rows : list Row) : Dataset :=
  let size := chunkSize d in
  match last (chunks d) with
  | None =>
      let fresh := chunk_rows size rows in
      {| chunkSize := size;
         rowCount := rowCount d + length rows;
         chunkCount := chunkCount d + length fresh;
         chunks := fresh |}
  | Some final =>
      let spare := size - length final in
      let fresh := chunk_rows size (drop spare rows) in
      {| chunkSize := size;
         rowCount := rowCount d + length rows;
         chunkCount := chunkCount d + length fresh;
         chunks := take (length (chunks d) - 1) (chunks d)
                     ++ (final ++ take spare rows) :: fresh |}
  end.

(** Modelled from the spec: getAllChunks concatenates all chunks in index
    order. *)
Definition getAllChunks (d : Dataset) : list Row := concat (chunks d).

(** Total number of rows held by the stored chunks. *)
Definition stored_rows (d : Dataset) : nat := sum_list_with length (chunks d).

(** The operations that populate a dataset. *)
Inductive Op := OpBatchInsert (rows : list Row) | OpAppend (rows : list Row).

Definition run_op (d : Dataset) (o : Op) : Dataset :=
  match o with
  | OpBatchInsert rows => batchInsert d rows
  | OpAppend rows => append d rows
  end.

(** A dataset in chunked form: created empty with a positive chunk size
    and then populated by completed batchInsert and append calls. *)
Inductive populated : Dataset -> Prop :=
| populated_create size : 0 < size -> populated (createDataset size)
| populated_op d o : populated d -> populated (run_op d o).

(** Shape of a chunk list: every chunk but the last is full, the last one
    holds between 1 and [size] rows. *)
Inductive well_chunked (size : nat) : list (list Row) -> Prop :=
| wc_nil : well_chunked size []
| wc_snoc init final :
    Forall (fun c => length c = size) init ->
    0 < length final <= size ->
    well_chunked size (init ++ [final]).

(** Modelled from the spec: a Chunk of the data model holds at most
    chunkSize rows, and only the final chunk may be shorter. *)
Definition only_final_partial (d : Dataset) : Prop :=
  well_chunked (chunkSize d) (chunks d).

(** No chunk of the dataset is partially filled: the final chunk, if there
    is one, is full. *)
Definition final_chunk_full (d : Dataset) : Prop :=
  match last (chunks d) with
  | None => True
  | Some final => length final = chunkSize d
  end.

(** A write that leaves no partially filled chunk in the middle: an append
    always, a batchInsert on a dataset whose final chunk is full. *)
Definition extends_final (d : Dataset) (o : Op) : Prop :=
  match o with
  | OpBatchInsert _ => final_chunk_full d
  | OpAppend _ => True
  end.

(** The counts of the metadata record agree with the stored chunks. *)
Definition counted (d : Dataset) : Prop :=
  0 < chunkSize d /\
  rowCount d = stored_rows d /\
  chunkCount d = length (chunks d).

Definition consistent (d : Dataset) : Prop :=
  0 < chunkSize d /\
  well_chunked (chunkSize d) (chunks d) /\
  rowCount d = stored_rows d /\
  chunkCount d = length (chunks d).

End Chunks.

Arguments Dataset : clear implicits.
Arguments Op : clear implicits.

End Storage.

(* ===================================================================== *)
(** ** JavaScript values, rows and host built-ins *)
(* ===================================================================== *)

Module JS.

(** The scalars a row can hold. A string is a sequence of UTF-16 code
    units, here the ones below 256; a number is an integer-valued Number;
    [VDate t] is a Date object with time value [t] in milliseconds since
    the epoch, [None] standing for an invalid Date. *)
Inductive val :=
| VUndefined
| VNull
| VBool (b : bool)
| VNum (n : Z)
| VStr (s : string)
| VDate (t : option Z).

(** RawRow: an object used as a map from column names to scalars. *)
Abbreviation RawRow := (gmap string val).

(** [row[column]]: a missing key reads as undefined. *)
Definition get (row : RawRow) (column : string) : val :=
  default VUndefined (row !! column).

(** ToBoolean. *)
Definition truthy (v : val) : bool :=
  match v with
  | VUndefined | VNull => false
  | VBool b => b
  | VNum n => negb (Z.eqb n 0)
  | VStr s => negb (String.eqb s EmptyString)
  | VDate _ => true
  end.

(** [a || b]. *)
Definition or_ (a b : val) : val := if truthy a then a else b.

(** [a ?? b]. *)
Definition nullish (a b : val) : val :=
  match a with
  | VUndefined | VNull => b
  | _ => a
  end.

(** A value that is missing, null or the empty string. *)
Definition blank (v : val) : bool :=
  match v with
  | VUndefined | VNull | VStr EmptyString => true
  | _ => false
  end.

(** Truthiness of a string-typed expression, as in [if (!s)]. *)
Definition nonempty (s : string) : bool := negb (String.eqb s EmptyString).

(** Array.prototype.sort with a comparator. The sort is stable, and for a
    consistent comparator its result is the stable ordering that this
    insertion sort computes: [x] is placed after the elements [y] with
    [cmp x y > 0]. *)
Fixpoint insert {A} (cmp : A -> A -> Z) (x : A) (l : list A) : list A :=
  match l with
  | [] => [x]
  | y :: l' => if Z.ltb 0 (cmp x y) then y :: insert cmp x l' else x :: l
  end.

Fixpoint sort {A} (cmp : A -> A -> Z) (l : list A) : list A :=
  match l with
  | [] => []
  | x :: l' => insert cmp x (sort cmp l')
  end.

(** The order a comparator asks for: [x] does not have to come after
    [y]. *)
Definition in_order {A} (cmp : A -> A -> Z) (x y : A) : Prop := cmp x y <= 0.

(** The comparator Array.prototype.sort uses when called without one:
    strings are compared by code units. *)
Definition default_compare (x y : string) : Z :=
  if String.ltb x y then -1 else if String.ltb y x then 1 else 0.

(** [new Set(iterable)] followed by [Array.from]: the elements in the
    order of their first occurrence. *)
Definition Set_add (s : list string) (x : string) : list string :=
  if bool_decide (x ∈ s) then s else s ++ [x].

Definition Set_from (l : list string) : list string := foldl Set_add [] l.

(** Time arithmetic of Date objects. Time values are unbounded
    integers, milliseconds since the epoch. *)
Definition msPerDay : Z := 86400000.
Definition msPerHour : Z := 3600000.
Definition msPerMinute : Z := 60000.
Definition msPerSecond : Z := 1000.

Definition MakeTime (h m s ms : Z) : Z :=
  h * msPerHour + m * msPerMinute + s * msPerSecond + ms.

Definition MakeDate (day time : Z) : Z := day * msPerDay + time.

(** The day number of a time value and its time within the day. *)
Definition Day (t : Z) : Z := t / msPerDay.
Definition HourFromTime (t : Z) : Z := (t / msPerHour) mod 24.
Definition MinFromTime (t : Z) : Z := (t / msPerMinute) mod 60.
Definition SecFromTime (t : Z) : Z := (t / msPerSecond) mod 60.
Definition msFromTime (t : Z) : Z := t mod msPerSecond.

Section Zone.
(** The time zone of the host: [LocalTZA t isUTC] is the offset of local
    time from UTC in milliseconds, at the UTC time value [t] when [isUTC]
    is true and at the local time value [t] otherwise. *)
Variable LocalTZA : Z -> bool -> Z.

Definition LocalTime (t : Z) : Z := t + LocalTZA t true.
Definition UTC (t : Z) : Z := t - LocalTZA t false.

Definition getHours (t : Z) : Z := HourFromTime (LocalTime t).
Definition getMinutes (t : Z) : Z := MinFromTime (LocalTime t).
Definition getSeconds (t : Z) : Z := SecFromTime (LocalTime t).
Definition getMilliseconds (t : Z) : Z := msFromTime (LocalTime t).

(** [date.setHours(h, m, s, ms)]: the given time on the local day of
    [t], converted back to UTC. *)
Definition setHours (t h m s ms : Z) : Z :=
  UTC (MakeDate (Day (LocalTime t)) (MakeTime h m s ms)).

(** The local time value [t] exists in the zone: converted to UTC and back
    it is [t] again. A local time that a forward change of the offset skips
    does not exist. *)
Definition local_exists (t : Z) : Prop := LocalTime (UTC t) = t.

End Zone.

End JS.

(* ===================================================================== *)
(** ** Dashboard filters and unique values (views/Analytics) *)
(* ===================================================================== *)

Module Analytics.
Import JS.

Inductive FilterDataType := text | number | date.

(** DashboardFilter: [endValue] and [dataType] are optional fields. *)
Record DashboardFilter := mkFilter {
  id : string;
  column : string;
  value : string;
  endValue : option string;
  dataType : option FilterDataType
}.

Definition is_date (t : option FilterDataType) : bool :=
  match t with
  | Some date => true
  | _ => false
  end.

Section Host.
(** Built-ins of the host: [Date.parse] on a string ([None] for NaN), the
    string conversion of a Date object, [String.prototype.toLowerCase] and
    the offsets of the local time zone. *)
Variable Date_parse : string -> option Z.
Variable Date_toString : option Z -> string.
Variable toLowerCase : string -> string.
Variable LocalTZA : Z -> bool -> Z.

(** [String(v)]. *)
Definition String_ (v : val) : string :=
  match v with
  | VUndefined => "undefined"
  | VNull => "null"
  | VBool true => "true"
  | VBool false => "false"
  | VNum n => pretty n
  | VStr s => s
  | VDate t => Date_toString t
  end.

(** A valid date is returned as its time value. *)
Definition toDateValue (v : val) : option Z :=
  match v with
  | VNull | VUndefined => None
  | VStr EmptyString => None
  | VDate t => t
  | _ => Date_parse (String_ v)
  end.

Definition normalizeRangeStart (v : option string) : option Z :=
  match v with
  | None => None
  | Some s =>
      if nonempty s then
        match toDateValue (VStr s) with
        | None => None
        | Some d => Some (setHours LocalTZA d 0 0 0 0)
        end
      else None
  end.

Definition normalizeRangeEnd (v : option string) : option Z :=
  match v with
  | None => None
  | Some s =>
      if nonempty s then
        match toDateValue (VStr s) with
        | None => None
        | Some d => Some (setHours LocalTZA d 23 59 59 999)
        end
      else None
  end.

(** [bound && rowDate < bound], with an absent bound being falsy. *)
Definition before (rowDate : Z) (bound : option Z) : bool :=
  match bound with
  | Some b => rowDate <? b
  | None => false
  end.

Definition after (rowDate : Z) (bound : option Z) : bool :=
  match bound with
  | Some b => b <? rowDate
  | None => false
  end.

Definition matchesFilterCondition (row : RawRow) (filter : DashboardFilter) : bool :=
  if negb (nonempty (column filter)) then true
  else
    let v := get row (column filter) in
    if is_date (dataType filter) then
      match toDateValue v with
      | None => false
      | Some rowDate =>
          let start := normalizeRangeStart (Some (value filter)) in
          let end_ := normalizeRangeEnd (endValue filter) in
          if before rowDate start then false
          else if after rowDate end_ then false
          else true
      end
    else if negb (nonempty (value filter)) then true
    else String.eqb (toLowerCase (String_ (nullish v (VStr ""))))
                    (toLowerCase (value filter)).

(** [filters.every(f => matchesFilterCondition(row, f))]. *)
Definition every (row : RawRow) (filters : list DashboardFilter) : bool :=
  forallb (matchesFilterCondition row) filters.

Definition filteredData (baseData : list RawRow) (filters : list DashboardFilter)
  : list RawRow :=
  if Nat.eqb (length filters) 0 then baseData
  else List.filter (fun row => every row filters) baseData.

Definition applyWidgetFilters (rows : list RawRow)
  (widgetFilters : option (list DashboardFilter)) : list RawRow :=
  match widgetFilters with
  | None => rows
  | Some fs =>
      if Nat.eqb (length fs) 0 then rows
      else List.filter (fun row => every row fs) rows
  end.

Definition getUniqueValues (baseData : list RawRow) (col : string) : list string :=
  let unique := Set_from (List.map (fun row => String_ (or_ (get row col) (VStr ""))) baseData) in
  take 100 (sort default_compare (List.filter nonempty unique)).

End Host.

End Analytics.

(* ===================================================================== *)
(** ** Sorting of aggregated entries (components/ChartBuilder) *)
(* ===================================================================== *)

Module ChartBuilder.

Inductive SortOrder := value_desc | value_asc | name_asc | name_desc | original.

(** An aggregated entry: its name, a string, and its numeric fields by
    key. *)
Record entry := mkEntry {
  name : string;
  fields : gmap string Z
}.

(** [e[valueKey] || 0] for a numeric field key. *)
Definition field (e : entry) (valueKey : string) : Z :=
  default 0 (fields e !! valueKey).

Section Host.
(** [String.prototype.localeCompare] of the host. *)
Variable localeCompare : string -> string -> Z.

Definition applySorting (data : list entry) (order : SortOrder) (valueKey : string)
  : list entry :=
  match order with
  | value_desc => JS.sort (fun a b => field b valueKey - field a valueKey) data
  | value_asc => JS.sort (fun a b => field a valueKey - field b valueKey) data
  | name_asc => JS.sort (fun a b => localeCompare (name a) (name b)) data
  | name_desc => JS.sort (fun a b => localeCompare (name b) (name a)) data
  | original => data
  end.

End Host.

End ChartBuilder.

(* ===================================================================== *)
(** ** Top-N step of the aggregation engine *)
(* ===================================================================== *)

Module Aggregation.

(** Modelled from the spec: one finalized entry of the aggregation, the
    value of the grouping dimension and the group's measure. The measure
    is a count, a sum or an average, here an exact rational number. *)
Record Group := mkGroup {
  name : string;
  value : Qc
}.

(** Modelled from the spec: the sum of the values of the groups, added up
    group by group from 0. *)
Definition total (groups : list Group) : Qc :=
  fold_left (fun sum g => (sum + value g)%Qc) groups 0%Qc.

(** Modelled from the spec: the comparison of two totals by the ranking,
    what a comparator [x - y] tells the sort: the sign of the
    difference. *)
Definition compare_values (x y : Qc) : Z :=
  match (x ?= y)%Qc with
  | Lt => -1
  | Eq => 0
  | Gt => 1
  end.

(** Modelled from the spec: the top-N ranking, by the group's total,
    largest first. *)
Definition rank (groups : list Group) : list Group :=
  JS.sort (fun a b => compare_values (value b) (value a)) groups.

(** Modelled from the spec: step 5 of aggregateData, whose source file is
    not available. If a top-N limit is set, the top N groups are kept and
    all remaining groups are collapsed into one synthetic entry named
    Others whose value is the sum of the excluded groups' values. *)
Definition applyTopN (limit : option nat) (groups : list Group) : list Group :=
  match limit with
  | None => groups
  | Some n =>
      let ranked := rank groups in
      match drop n ranked with
      | [] => ranked
      | excluded => take n ranked ++ [mkGroup "Others" (total excluded)]
      end
  end.

End Aggregation.

(* ===================================================================== *)
(** ** A concrete host, for running the definitions *)
(* ===================================================================== *)

Module SampleHost.

(** Lower-casing of one code unit of the Latin-1 range. *)
Definition lower_unit (c : ascii) : ascii :=
  let n := N_of_ascii c in
  if ((65 <=? n) && (n <=? 90) || (192 <=? n) && (n <=? 214)
      || (216 <=? n) && (n <=? 222))%N
  then ascii_of_N (n + 32) else c.

Fixpoint toLowerCase (s : string) : string :=
  match s with
  | EmptyString => EmptyString
  | String c s' => String (lower_unit c) (toLowerCase s')
  end.

Definition digit (c : ascii) : option Z :=
  let n := N_of_ascii c in
  if ((48 <=? n) && (n <=? 57))%N then Some (Z.of_N n - 48) else None.

Definition digits2 (a b : ascii) : option Z :=
  match digit a, digit b with
  | Some x, Some y => Some (10 * x + y)
  | _, _ => None
  end.

Definition is_leap (y : Z) : bool :=
  (y mod 4 =? 0) && (negb (y mod 100 =? 0) || (y mod 400 =? 0)).

Definition days_in_month (y m : Z) : Z :=
  if m =? 2 then (if is_leap y then 29 else 28)
  else if (m =? 4) || (m =? 6) || (m =? 9) || (m =? 11) then 30 else 31.

(** Days between the epoch and the civil date [y]-[m]-[d]. *)
Definition days_from_civil (y m d : Z) : Z :=
  let y' := if m <=? 2 then y - 1 else y in
  let era := y' / 400 in
  let yoe := y' - era * 400 in
  let doy := (153 * (if 2 <? m then m - 3 else m + 9) + 2) / 5 + d - 1 in
  let doe := yoe * 365 + yoe / 4 - yoe / 100 + doy in
  era * 146097 + doe - 719468.

(** [Date.parse] restricted to the date-only form YYYY-MM-DD, which is read
    as midnight UTC; every other string is rejected. *)
Definition Date_parse (s : string) : option Z :=
  match s with
  | String y1 (String y2 (String y3 (String y4 (String "-"
      (String m1 (String m2 (String "-" (String d1 (String d2 EmptyString))))))))) =>
      match digits2 y1 y2, digits2 y3 y4, digits2 m1 m2, digits2 d1 d2 with
      | Some yh, Some yl, Some m, Some d =>
          let y := 100 * yh + yl in
          if (1 <=? m) && (m <=? 12) && (1 <=? d) && (d <=? days_in_month y m)
          then Some (days_from_civil y m d * JS.msPerDay) else None
      | _, _, _, _ => None
      end
  | _ => None
  end.

(** A Date object is rendered by its time value. *)
Definition Date_toString (t : option Z) : string :=
  match t with
  | Some t => pretty t
  | None => "Invalid Date"
  end.

(** Comparison by code units. *)
Definition localeCompare (x y : string) : Z :=
  match String.compare x y with
  | Lt => -1
  | Eq => 0
  | Gt => 1
  end.

(** The zone of Bangkok: local time is 6:42:04 ahead of UTC until
    1 April 1920 and seven hours ahead of it from then on; the local times
    from 00:00:00 to 00:17:55 of that day are skipped. *)
Definition zone_change : Z := -1570084924000.

Definition LocalTZA (t : Z) (isUTC : bool) : Z :=
  if isUTC then (if t <? zone_change then 24124000 else 7 * JS.msPerHour)
  else (if t <? zone_change + 7 * JS.msPerHour then 24124000 else 7 * JS.msPerHour).

(** A zone five hours behind UTC all year. *)
Definition LocalTZA_west (t : Z) (isUTC : bool) : Z := -5 * JS.msPerHour.

Definition row (l : list (string * JS.val)) : JS.RawRow := list_to_map l.

(** Sample rows and filters. *)
Definition post (channel day : string) : JS.RawRow :=
  row [("channel"%string, JS.VStr channel); ("day"%string, JS.VStr day)].

Definition january : Analytics.DashboardFilter :=
  Analytics.mkFilter "f1" "day" "2024-01-15" (Some "2024-01-31"%string)
    (Some Analytics.date).

Definition facebook : Analytics.DashboardFilter :=
  Analytics.mkFilter "f2" "channel" "Facebook" None (Some Analytics.text).

(** Filters that name no column. *)
Definition january_no_column : Analytics.DashboardFilter :=
  Analytics.mkFilter "f3" "" "2024-01-15" (Some "2024-01-31"%string)
    (Some Analytics.date).

Definition facebook_no_column : Analytics.DashboardFilter :=
  Analytics.mkFilter "f4" "" "Facebook" None (Some Analytics.text).

Definition any_date_no_column : Analytics.DashboardFilter :=
  Analytics.mkFilter "f5" "" "" None (Some Analytics.date).

(** A date filter on a column with neither bound set, and a categorical
    filter with no value. *)
Definition any_date : Analytics.DashboardFilter :=
  Analytics.mkFilter "f6" "day" "" (Some ""%string) (Some Analytics.date).

Definition any_channel : Analytics.DashboardFilter :=
  Analytics.mkFilter "f7" "channel" "" None (Some Analytics.text).

(** A categorical filter whose value spells null, and a row whose channel
    is null. *)
Definition null_channel : Analytics.DashboardFilter :=
  Analytics.mkFilter "f8" "channel" "null" None (Some Analytics.text).

Definition unknown_channel : JS.RawRow := row [("channel"%string, JS.VNull)].

(** Rows whose column [n] holds 0, false and 7. *)
Definition zero_row : JS.RawRow := row [("n"%string, JS.VNum 0)].
Definition false_row : JS.RawRow := row [("n"%string, JS.VBool false)].
Definition falsy_rows : list JS.RawRow :=
  [zero_row; false_row; row [("n"%string, JS.VNum 7)]].

(** Four groups whose measure is an average. *)
Definition averages : list Aggregation.Group :=
  [Aggregation.mkGroup "tw" (Q2Qc 1); Aggregation.mkGroup "fb" (Q2Qc (5 # 2));
   Aggregation.mkGroup "ig" (Q2Qc 3); Aggregation.mkGroup "yt" (Q2Qc (1 # 2))].

(** The dataset of the specification's scenario: three rows, chunkSize 2. *)
Definition scenario : Storage.Dataset nat :=
  Storage.batchInsert (Storage.createDataset 2) [10; 11; 12]%nat.

(** The functions of the dashboard on this host. *)
Definition matchesFilterCondition :=
  Analytics.matchesFilterCondition Date_parse Date_toString toLowerCase LocalTZA.
Definition toDateValue := Analytics.toDateValue Date_parse Date_toString.
Definition getUniqueValues := Analytics.getUniqueValues Date_toString.

End SampleHost.

(* ===================================================================== *)
(** ** String helpers of the host *)
(* ===================================================================== *)

Module Text.

(** WhiteSpace and LineTerminator code units below 256. *)
Definition is_space (c : ascii) : bool :=
  let n := N_of_ascii c in
  ((9 <=? n) && (n <=? 13) || (n =? 32) || (n =? 160))%N.

Fixpoint trimStart (s : string) : string :=
  match s with
  | EmptyString => EmptyString
  | String c s' => if is_space c then trimStart s' else s
  end.

Fixpoint trimEnd (s : string) : string :=
  match s with
  | EmptyString => EmptyString
  | String c s' =>
      match trimEnd s' with
      | EmptyString => if is_space c then EmptyString else String c EmptyString
      | t => String c t
      end
  end.

(** [s.trim()]. *)
Definition trim (s : string) : string := trimEnd (trimStart s).

(** [/[-/]/.test(s)]: the string holds a hyphen or a slash. *)
Fixpoint has_date_separator (s : string) : bool :=
  match s with
  | EmptyString => false
  | String c s' =>
      (N_of_ascii c =? 45)%N || (N_of_ascii c =? 47)%N || has_date_separator s'
  end.

End Text.

(* ===================================================================== *)
(** ** Column types, filter panel and widget list (views/Analytics) *)
(* ===================================================================== *)

Module Panel.
Import JS Analytics.

Definition SAMPLE_SIZE : nat := 50.

(** [k / n >= 0.6] for counts with [0 < n <= SAMPLE_SIZE]. The quotient
    of two such integers is either at least three fifths, and then its
    double is not below the double of 0.6, or below it by more than one
    part in 250, so the comparison of doubles is the comparison of
    [5 * k] with [3 * n]. *)
Definition reaches_share (k n : nat) : bool := (3 * n <=? 5 * k)%nat.

(** [val !== undefined && val !== null && val !== '']. *)
Definition present (v : val) : bool := negb (blank v).

(** The two fields that updateFilterValue can set. *)
Inductive FilterField := field_value | field_endValue.

(** The state the filter handlers read and set. *)
Record FilterPanel := mkPanel {
  filters : list DashboardFilter;
  newFilterCol : string
}.

(** The operations of the filter bar: the three filter handlers, and the
    choice of a column in the selector of new filters. *)
Inductive PanelOp :=
| OpAdd (uuid column value : string)
| OpRemove (id : string)
| OpUpdate (id val : string) (field : FilterField)
| OpSelect (column : string).

Section Host.
(** Built-ins of the host: [Date.parse], the string conversion of a Date
    object, [Date.prototype.toISOString] on a valid time value, and whether
    [Number(s)] is NaN. *)
Variable Date_parse : string -> option Z.
Variable Date_toString : option Z -> string.
Variable toISOString : Z -> string.
Variable Number_isNaN : string -> bool.

Definition normalizeDateInputValue (value : string) : string :=
  match toDateValue Date_parse Date_toString (VStr value) with
  | None => EmptyString
  | Some d => substring 0 10 (toISOString d)
  end.

(** The sampling loop of inferColumnType: it runs over the rows while fewer
    than SAMPLE_SIZE samples are collected. *)
Fixpoint collect_samples (column : string) (rows : list RawRow) (samples : list val)
  : list val :=
  match rows with
  | [] => samples
  | row :: rest =>
      if (length samples <? SAMPLE_SIZE)%nat then
        let v := get row column in
        collect_samples column rest (if present v then samples ++ [v] else samples)
      else samples
  end.

Definition dateLike (v : val) : bool :=
  match v with
  | VDate t => bool_decide (is_Some t)
  | VStr s =>
      let trimmed := Text.trim s in
      if (String.length trimmed <? 6)%nat then false
      else Text.has_date_separator trimmed
           && bool_decide (is_Some (Date_parse trimmed))
  | _ => false
  end.

Definition numberLike (v : val) : bool :=
  match v with
  | VNum _ => true
  | VStr s =>
      let trimmed := Text.trim s in
      if nonempty trimmed then negb (Number_isNaN trimmed) else false
  | _ => false
  end.

Definition inferColumnType (column : string) (rows : list RawRow) : FilterDataType :=
  let samples := collect_samples column rows [] in
  if Nat.eqb (length samples) 0 then text
  else if reaches_share (length (List.filter dateLike samples)) (length samples)
  then date
  else if reaches_share (length (List.filter numberLike samples)) (length samples)
  then number
  else text.

(** [getColumnType] is the type lookup that addFilter calls. *)
Variable getColumnType : string -> FilterDataType.

Definition set_field (f : DashboardFilter) (field : FilterField) (val : string)
  : DashboardFilter :=
  match field with
  | field_value => mkFilter (id f) (column f) val (endValue f) (dataType f)
  | field_endValue => mkFilter (id f) (column f) (value f) (Some val) (dataType f)
  end.

Definition updateFilterValue (p : FilterPanel) (fid val : string) (field : FilterField)
  : FilterPanel :=
  mkPanel
    (List.map (fun f => if String.eqb (id f) fid then set_field f field val else f)
              (filters p))
    (newFilterCol p).

Definition removeFilter (p : FilterPanel) (fid : string) : FilterPanel :=
  mkPanel (List.filter (fun f => negb (String.eqb (id f) fid)) (filters p))
          (newFilterCol p).

(** [uuid] is the identifier that [crypto.randomUUID()] returns. *)
Definition addFilter (uuid : string) (p : FilterPanel) (col value : string)
  : FilterPanel :=
  if negb (nonempty col) then p
  else
    match List.find (fun f => String.eqb (column f) col) (filters p) with
    | Some found =>
        if nonempty value then updateFilterValue p (id found) value field_value
        else p
    | None =>
        let dt := getColumnType col in
        let newFilter :=
          match dt with
          | date =>
              if nonempty value then
                let normalized := normalizeDateInputValue value in
                if nonempty normalized
                then mkFilter uuid col normalized None (Some date)
                else mkFilter uuid col value None (Some text)
              else mkFilter uuid col "" (Some ""%string) (Some date)
          | _ => mkFilter uuid col value None (Some dt)
          end in
        mkPanel (filters p ++ [newFilter]) ""
    end.

Definition run (p : FilterPanel) (o : PanelOp) : FilterPanel :=
  match o with
  | OpAdd uuid col value => addFilter uuid p col value
  | OpRemove fid => removeFilter p fid
  | OpUpdate fid val field => updateFilterValue p fid val field
  | OpSelect col => mkPanel (filters p) col
  end.

(** The panels that the filter bar can be in: it starts without filters. *)
Inductive reachable : FilterPanel -> Prop :=
| reachable_init : reachable (mkPanel [] "")
| reachable_step p o : reachable p -> reachable (run p o).

End Host.

(** The dashboard's widget list and the state of the chart builder
    dialog. Only the identifier of a widget is inspected. *)
Section Widgets.
Context {Widget : Type}.
Variable widget_id : Widget -> string.

Record Board := mkBoard {
  widgets : list Widget;
  isBuilderOpen : bool;
  editingWidget : option Widget
}.

Definition handleSaveWidget (b : Board) (newWidget : Widget) : Board :=
  let updatedWidgets :=
    match editingWidget b with
    | Some _ =>
        List.map (fun w => if String.eqb (widget_id w) (widget_id newWidget)
                           then newWidget else w) (widgets b)
    | None => widgets b ++ [newWidget]
    end in
  mkBoard updatedWidgets false None.

(** [confirmed] is the answer of [window.confirm]. *)
Definition handleDeleteWidget (confirmed : bool) (b : Board) (wid : string) : Board :=
  if negb confirmed then b
  else mkBoard (List.filter (fun w => negb (String.eqb (widget_id w) wid)) (widgets b))
               (isBuilderOpen b) (editingWidget b).

End Widgets.

Arguments Board : clear implicits.

End Panel.

(* ===================================================================== *)
(** ** Builder state and category lists (components/ChartBuilder) *)
(* ===================================================================== *)

Module Builder.
Import JS.

(** The sum [sortByTotals] attaches to a row: every key but [name]
    contributes [row[key] || 0]. *)
Definition row_total (e : ChartBuilder.entry) : Z :=
  map_fold (fun key v sum => if String.eqb key "name" then sum else sum + v) 0
           (ChartBuilder.fields e).

(** [{...row, __total: total}]. *)
Definition with_total (e : ChartBuilder.entry) : ChartBuilder.entry :=
  ChartBuilder.mkEntry (ChartBuilder.name e)
    (<["__total"%string := row_total e]> (ChartBuilder.fields e)).

(** [({ __total, ...rest }) => rest]. *)
Definition without_total (e : ChartBuilder.entry) : ChartBuilder.entry :=
  ChartBuilder.mkEntry (ChartBuilder.name e)
    (delete "__total"%string (ChartBuilder.fields e)).

Definition sortByTotals (localeCompare : string -> string -> Z)
  (rows : list ChartBuilder.entry) (order : ChartBuilder.SortOrder)
  : list ChartBuilder.entry :=
  let withTotals := List.map with_total rows in
  let sorted := ChartBuilder.applySorting localeCompare withTotals order "__total" in
  List.map without_total sorted.

(** The categories of the chosen dimension. *)
Definition allCategories (Date_toString : option Z -> string)
  (dimension : string) (data : list RawRow) : list string :=
  if negb (nonempty dimension) || Nat.eqb (length data) 0 then []
  else
    sort default_compare
      (Set_from (List.map (fun row => Analytics.String_ Date_toString
                                        (or_ (get row dimension) (VStr "N/A")))
                          data)).

(** The open sections of the form, a set of section names. *)
Definition toggleSection (openSections : gset string) (section : string) : gset string :=
  if bool_decide (section ∈ openSections)
  then openSections ∖ {[section]}
  else openSections ∪ {[section]}.

Definition handleCategoryToggle (categoryFilter : list string) (cat : string)
  : list string :=
  if bool_decide (cat ∈ categoryFilter)
  then List.filter (fun c => negb (String.eqb c cat)) categoryFilter
  else categoryFilter ++ [cat].

(** The top-N controls of the builder and the two widget fields that store
    them. *)
Record TopNControls := mkTopN {
  topNEnabled : bool;
  topNCount : Z;
  groupOthers : bool
}.

Record TopNFields := mkTopNFields {
  topN : option Z;
  widget_groupOthers : option bool
}.

(** The top-N part of handleSave. *)
Definition save_topN (c : TopNControls) : TopNFields :=
  mkTopNFields (if topNEnabled c then Some (Z.max 1 (topNCount c)) else None)
               (if topNEnabled c then Some (groupOthers c) else None).

(** The top-N part of the initialisation from a widget. *)
Definition init_topN (w : TopNFields) : TopNControls :=
  match topN w with
  | Some n =>
      if 0 <? n
      then mkTopN true n (match widget_groupOthers w with
                          | Some false => false
                          | _ => true
                          end)
      else mkTopN false 5 true
  | None => mkTopN false 5 true
  end.

(** The series of a multi-series chart. Only the identifier of a series is
    inspected. *)
Section Series.
Context {SeriesConfig : Type}.
Variable series_id : SeriesConfig -> string.

Record SeriesState := mkSeries {
  series : list SeriesConfig;
  sortSeriesId : string
}.

Definition find_series (l : list SeriesConfig) (sid : string) : option SeriesConfig :=
  List.find (fun s => String.eqb (series_id s) sid) l.

Definition handleDeleteSeries (st : SeriesState) (sid : string) : SeriesState :=
  mkSeries (List.filter (fun s => negb (String.eqb (series_id s) sid)) (series st))
           (sortSeriesId st).

Definition handleSaveSeries (st : SeriesState) (newSeries : SeriesConfig) : SeriesState :=
  match find_series (series st) (series_id newSeries) with
  | Some _ =>
      mkSeries (List.map (fun s => if String.eqb (series_id s) (series_id newSeries)
                                   then newSeries else s) (series st))
               (sortSeriesId st)
  | None =>
      mkSeries (series st ++ [newSeries])
               (if nonempty (sortSeriesId st) then sortSeriesId st
                else series_id newSeries)
  end.

(** The effect that runs when the series or the sort series change. *)
Definition sync_sortSeries (st : SeriesState) : SeriesState :=
  if nonempty (sortSeriesId st)
     && negb (bool_decide (is_Some (find_series (series st) (sortSeriesId st))))
  then mkSeries (series st)
                (match series st with
                 | s :: _ => series_id s
                 | [] => EmptyString
                 end)
  else st.

End Series.

Arguments SeriesState : clear implicits.

End Builder.

(* ===================================================================== *)
(** ** Dashboards of a project (utils/dashboards) *)
(* ===================================================================== *)

Module Dashboards.
Import JS.

Section Model.
(** Widgets and the remaining fields of a project are carried along and
    never inspected. *)
Context {Widget Other : Type}.

(** ProjectDashboard as it is stored: the widget list and the two time
    stamps can be missing. *)
Record ProjectDashboard := mkDashboard {
  id : string;
  name : string;
  description : string;
  widgets : option (list Widget);
  createdAt : option Z;
  updatedAt : option Z
}.

(** The fields of a Project that the dashboard functions read or set:
    [dashboard] is the legacy widget list. *)
Record Project := mkProject {
  project_id : string;
  dashboards : option (list ProjectDashboard);
  dashboard : option (list Widget);
  activeDashboardId : option string;
  lastModified : option Z;
  other : Other
}.

Record Ensured := mkEnsured {
  project : Project;
  ensured_dashboards : list ProjectDashboard;
  activeDashboard : option ProjectDashboard;
  changed : bool
}.

(** [stamp || now()] for an optional number. *)
Definition stamp_or (stamp : option Z) (now : Z) : Z :=
  match stamp with
  | Some t => if t =? 0 then now else t
  | None => now
  end.

(** [d.id === x] for an optional identifier [x]. *)
Definition has_id (x : option string) (d : ProjectDashboard) : bool :=
  match x with
  | Some s => String.eqb (id d) s
  | None => false
  end.

(** Truthiness of an optional string. *)
Definition truthy_id (x : option string) : bool :=
  match x with
  | Some s => nonempty s
  | None => false
  end.

(** The functions below take the reading [now] of [Date.now()]; one call
    of a function sees one reading. *)
Definition normalizeDashboard (now : Z) (d : ProjectDashboard) : ProjectDashboard :=
  mkDashboard (id d) (name d) (description d)
    (Some (default [] (widgets d)))
    (Some (stamp_or (createdAt d) now))
    (Some (stamp_or (updatedAt d) now)).

(** [uuid] is the identifier that [crypto.randomUUID()] returns. *)
Definition createDashboard (now : Z) (uuid : string) (name : string)
  (ws : list Widget) : ProjectDashboard :=
  mkDashboard uuid
    (if nonempty (Text.trim name) then Text.trim name else "Untitled Dashboard")
    "" (Some ws) (Some now) (Some now).

Definition syncLegacyWidgets (p : Project) (active : option ProjectDashboard) : Project :=
  match active with
  | None => p
  | Some a =>
      mkProject (project_id p) (dashboards p) (widgets a) (activeDashboardId p)
                (lastModified p) (other p)
  end.

Definition hasLegacyWidgets (p : Project) : bool :=
  match dashboard p with
  | Some (_ :: _) => true
  | _ => false
  end.

Definition ensureDashboards (now : Z) (p : Project) : Ensured :=
  let normalized_list := List.map (normalizeDashboard now) (default [] (dashboards p)) in
  let changed0 := negb (bool_decide (is_Some (dashboards p))) in
  let migrate := Nat.eqb (length normalized_list) 0 && hasLegacyWidgets p in
  let ds :=
    if migrate then
      [mkDashboard (project_id p +:+ "-legacy") "Legacy Dashboard"
         "Migrated from classic analytics" (dashboard p)
         (Some (stamp_or (lastModified p) now))
         (Some (stamp_or (lastModified p) now))]
    else normalized_list in
  let changed1 := changed0 || migrate in
  let active_id :=
    match ds with
    | [] => None
    | first :: _ =>
        match List.find (has_id (activeDashboardId p)) ds with
        | Some _ => activeDashboardId p
        | None => Some (id first)
        end
    end in
  let changed2 :=
    changed1 || negb (bool_decide (active_id = activeDashboardId p)) in
  let normalized :=
    if changed2 then
      let q := mkProject (project_id p) (Some ds) (dashboard p) active_id
                         (lastModified p) (other p) in
      if truthy_id active_id
      then syncLegacyWidgets q (List.find (has_id active_id) ds)
      else q
    else p in
  let wanted :=
    if truthy_id (activeDashboardId normalized)
    then activeDashboardId normalized
    else id <$> head ds in
  let active :=
    match List.find (has_id wanted) ds with
    | Some d => Some d
    | None => head ds
    end in
  mkEnsured normalized ds active changed2.

Definition addDashboard (now : Z) (uuid : string) (p : Project) (name : string)
  : Project * ProjectDashboard :=
  let normalized := project (ensureDashboards now p) in
  let d := createDashboard now uuid name [] in
  (mkProject (project_id normalized)
     (Some (default [] (dashboards normalized) ++ [d]))
     (widgets d) (Some (id d)) (Some now) (other normalized),
   d).

Definition renameDashboard (now : Z) (p : Project) (dashboardId name : string)
  : Project :=
  let normalized := project (ensureDashboards now p) in
  let ds :=
    List.map
      (fun d => if String.eqb (id d) dashboardId
                then mkDashboard (id d)
                       (if nonempty (Text.trim name) then Text.trim name
                        else let 'mkDashboard _ old _ _ _ _ := d in old)
                       (description d) (widgets d) (createdAt d) (Some now)
                else d)
      (default [] (dashboards normalized)) in
  mkProject (project_id normalized) (Some ds) (dashboard normalized)
            (activeDashboardId normalized) (Some now) (other normalized).

Definition updateDashboardWidgets (now : Z) (p : Project) (dashboardId : string)
  (ws : list Widget) : Project :=
  let normalized := project (ensureDashboards now p) in
  let ds :=
    List.map
      (fun d => if String.eqb (id d) dashboardId
                then mkDashboard (id d) (name d) (description d) (Some ws)
                                 (createdAt d) (Some now)
                else d)
      (default [] (dashboards normalized)) in
  let updated :=
    mkProject (project_id normalized) (Some ds) (dashboard normalized)
              (activeDashboardId normalized) (Some now) (other normalized) in
  if bool_decide (activeDashboardId normalized = Some dashboardId)
  then syncLegacyWidgets updated (List.find (has_id (Some dashboardId)) ds)
  else updated.

Definition setActiveDashboard (now : Z) (p : Project) (dashboardId : string) : Project :=
  let normalized := project (ensureDashboards now p) in
  match List.find (has_id (Some dashboardId)) (default [] (dashboards normalized)) with
  | None => normalized
  | Some target =>
      syncLegacyWidgets
        (mkProject (project_id normalized) (dashboards normalized)
                   (dashboard normalized) (Some dashboardId) (Some now)
                   (other normalized))
        (Some target)
  end.

Definition removeDashboard (now : Z) (p : Project) (dashboardId : string) : Project :=
  let normalized := project (ensureDashboards now p) in
  let ds :=
    List.filter (fun d => negb (String.eqb (id d) dashboardId))
                (default [] (dashboards normalized)) in
  let active_id :=
    if bool_decide (activeDashboardId normalized = Some dashboardId)
    then id <$> head ds
    else activeDashboardId normalized in
  let updated :=
    mkProject (project_id normalized) (Some ds) (dashboard normalized) active_id
              (Some now) (other normalized) in
  syncLegacyWidgets updated (List.find (has_id active_id) ds).

(** The active dashboard of a project is one of its dashboards, and a
    project without dashboards has none. *)
Definition active_valid (p : Project) : Prop :=
  exists ds, dashboards p = Some ds /\
    match ds with
    | [] => activeDashboardId p = None
    | _ :: _ => exists d, d ∈ ds /\ activeDashboardId p = Some (id d)
    end.

End Model.

Arguments ProjectDashboard : clear implicits.
Arguments Project : clear implicits.
Arguments Ensured : clear implicits.

End Dashboards.

(* ===================================================================== *)
(** ** More of the concrete host, and sample data *)
(* ===================================================================== *)

Module Samples.
Import JS.

(** The civil date of a day number, counted from the epoch. *)
Definition civil_from_days (days : Z) : Z * Z * Z :=
  let z := days + 719468 in
  let era := z / 146097 in
  let doe := z - era * 146097 in
  let yoe := (doe - doe / 1460 + doe / 36524 - doe / 146096) / 365 in
  let doy := doe - (365 * yoe + yoe / 4 - yoe / 100) in
  let mp := (5 * doy + 2) / 153 in
  let d := doy - (153 * mp + 2) / 5 + 1 in
  let m := if mp <? 10 then mp + 3 else mp - 9 in
  (yoe + era * 400 + (if m <=? 2 then 1 else 0), m, d).

(** [n] in decimal, padded with zeros to [width] digits. *)
Definition pad (width : nat) (n : Z) : string :=
  let s : string := pretty n in
  String.concat "" (replicate (width - String.length s) "0"%string) +:+ s.

(** [Date.prototype.toISOString] for the years 0 to 9999. *)
Definition toISOString (t : Z) : string :=
  let '(y, m, d) := civil_from_days (t / msPerDay) in
  let time := t mod msPerDay in
  pad 4 y +:+ "-" +:+ pad 2 m +:+ "-" +:+ pad 2 d +:+ "T"
  +:+ pad 2 (time / msPerHour) +:+ ":" +:+ pad 2 ((time / msPerMinute) mod 60)
  +:+ ":" +:+ pad 2 ((time / msPerSecond) mod 60) +:+ "."
  +:+ pad 3 (time mod msPerSecond) +:+ "Z".

Fixpoint all_digits (s : string) : bool :=
  match s with
  | EmptyString => true
  | String c s' =>
      match SampleHost.digit c with
      | Some _ => all_digits s'
      | None => false
      end
  end.

(** Whether [Number(s)] is NaN, for this host: every string but a run of
    decimal digits with an optional minus sign in front. *)
Definition Number_isNaN (s : string) : bool :=
  match s with
  | EmptyString => false
  | String "-" (String c s') => negb (all_digits (String c s'))
  | _ => negb (all_digits s)
  end.

(** The column types of the sample rows. *)
Definition getColumnType (col : string) : Analytics.FilterDataType :=
  if String.eqb col "day" then Analytics.date else Analytics.text.

(** The filter handlers on this host. *)
Definition addFilter :=
  Panel.addFilter SampleHost.Date_parse SampleHost.Date_toString toISOString
    getColumnType.
Definition run :=
  Panel.run SampleHost.Date_parse SampleHost.Date_toString toISOString getColumnType.
Definition reachable :=
  Panel.reachable SampleHost.Date_parse SampleHost.Date_toString toISOString
    getColumnType.
Definition filteredData :=
  Analytics.filteredData SampleHost.Date_parse SampleHost.Date_toString
    SampleHost.toLowerCase SampleHost.LocalTZA.
Definition inferColumnType :=
  Panel.inferColumnType SampleHost.Date_parse Number_isNaN.

Definition empty_panel : Panel.FilterPanel := Panel.mkPanel [] "".

(** A few posts. *)
Definition posts : list RawRow :=
  [SampleHost.post "facebook" "2024-01-20";
   SampleHost.post "twitter" "2024-02-01";
   SampleHost.post "Facebook" "soon";
   SampleHost.row [("channel"%string, VNull)]].

(** Rows whose [likes] are numbers. *)
Definition liked (n : Z) : RawRow := SampleHost.row [("likes"%string, VNum n)].

(** Aggregated entries. *)
Definition entries : list ChartBuilder.entry :=
  [ChartBuilder.mkEntry "tw" {["pos" := 1; "neg" := 2]};
   ChartBuilder.mkEntry "fb" {["pos" := 5]};
   ChartBuilder.mkEntry "ig" ∅].

(** Projects whose widgets are named by strings. *)
Definition legacy_project : Dashboards.Project string unit :=
  Dashboards.mkProject "p1" None (Some ["chart-a"; "chart-b"]%string) None
    (Some 1700000000000) tt.

Definition overview : Dashboards.ProjectDashboard string :=
  Dashboards.mkDashboard "d1" "Overview" "" (Some ["chart-a"%string])
    (Some 1700000000000) (Some 1700000000000).

Definition one_dashboard_project : Dashboards.Project string unit :=
  Dashboards.mkProject "p2" (Some [overview]) (Some ["chart-a"%string])
    (Some "d1"%string) (Some 1700000000000) tt.

End Samples.

(* ===================================================================== *)
(** ** Facts about the chunk store *)
(* ===================================================================== *)

Section StorageFacts.
Import Storage.
Context {Row : Type}.
Implicit Types (rows : list Row) (cks : list (list Row)) (d : Dataset Row).

Local Open Scope nat_scope.

Lemma ceil_div_full_and_rest (k r size : nat) :
  0 < r <= size -> ceil_div (k * size + r) size = S k.
Proof.
  intros [Hr Hs]. unfold ceil_div.
  symmetry. apply (Nat.div_unique _ _ _ (r - 1)); lia.
Qed.

Lemma ceil_div_0 (size : nat) : 0 < size -> ceil_div 0 size = 0.
Proof. intros H. unfold ceil_div. apply Nat.div_small. lia. Qed.

Lemma sum_list_full (size : nat) cks :
  Forall (fun c => length c = size) cks ->
  sum_list_with length cks = length cks * size.
Proof.
  induction 1 as [|c cks Hc _ IH]; csimpl; [done|]. rewrite IH, Hc. lia.
Qed.

Lemma well_chunked_count (size : nat) cks :
  0 < size -> well_chunked size cks ->
  length cks = ceil_div (sum_list_with length cks) size.
Proof.
  intros Hs [|init final Hinit Hfinal]; simpl.
  - by rewrite ceil_div_0.
  - rewrite sum_list_with_app, length_app, (sum_list_full size) by done.
    simpl. rewrite Nat.add_0_r, ceil_div_full_and_rest by done. lia.
Qed.

Lemma well_chunked_cons (size : nat) c cks :
  length c = size -> cks <> [] -> well_chunked size cks ->
  well_chunked size (c :: cks).
Proof.
  intros Hc Hne Hw. destruct Hw as [|init final Hinit Hfinal]; [done|].
  change (well_chunked size ((c :: init) ++ [final])).
  constructor; [by constructor | done].
Qed.

Lemma well_chunked_app (size : nat) full cks :
  Forall (fun c => length c = size) full -> cks <> [] ->
  well_chunked size cks -> well_chunked size (full ++ cks).
Proof.
  induction 1 as [|c full Hc _ IH]; intros Hne Hw; simpl; [done|].
  apply well_chunked_cons; [done| |by apply IH].
  by destruct full.
Qed.

(** Enough fuel: the groups cover the rows, in order. *)
Lemma chunk_fuel_concat (fuel size : nat) rows :
  0 < size -> length rows <= fuel -> concat (chunk_fuel fuel size rows) = rows.
Proof.
  intros Hs. revert rows.
  induction fuel as [|fuel IH]; intros rows Hlen.
  - destruct rows; simpl in *; [done | lia].
  - destruct rows as [|r rows]; [done|].
    cbn [chunk_fuel concat]. rewrite IH.
    + apply take_drop.
    + rewrite length_drop. simpl in *. lia.
Qed.

Lemma chunk_fuel_shape (fuel size : nat) rows :
  0 < size -> length rows <= fuel -> well_chunked size (chunk_fuel fuel size rows).
Proof.
  intros Hs. revert rows.
  induction fuel as [|fuel IH]; intros rows Hlen; [constructor|].
  destruct rows as [|r rows]; [constructor|].
  cbn [chunk_fuel]. set (l := r :: rows) in *.
  assert (Hl : 0 < length l) by (simpl; lia).
  destruct (decide (length l <= size)) as [Hle|Hgt].
  - rewrite drop_ge, take_ge by done.
    destruct fuel; simpl; apply (wc_snoc size [] l); auto.
  - apply well_chunked_cons.
    + rewrite length_take. lia.
    + assert (Hd : 0 < length (drop size l)) by (rewrite length_drop; lia).
      destruct (drop size l) eqn:E; [simpl in Hd; lia|].
      destruct fuel; [lia | done].
    + apply IH. rewrite length_drop. lia.
Qed.

Lemma chunk_rows_concat (size : nat) rows :
  0 < size -> concat (chunk_rows size rows) = rows.
Proof. intros. by apply chunk_fuel_concat. Qed.

Lemma chunk_rows_shape (size : nat) rows :
  0 < size -> well_chunked size (chunk_rows size rows).
Proof. intros. by apply chunk_fuel_shape. Qed.

Lemma sum_list_length_concat cks :
  sum_list_with length cks = length (concat cks).
Proof.
  induction cks as [|c cks IH]; csimpl; [done|]. rewrite length_app. lia.
Qed.

Lemma chunk_rows_stored (size : nat) rows :
  0 < size -> sum_list_with length (chunk_rows size rows) = length rows.
Proof.
  intros. by rewrite sum_list_length_concat, chunk_rows_concat.
Qed.

Lemma chunk_rows_nil (size : nat) rows :
  chunk_rows size rows = [] -> rows = [].
Proof. unfold chunk_rows. by destruct rows. Qed.

(** The written rows follow the rows already stored. *)
Lemma getAllChunks_batchInsert d rows :
  0 < chunkSize d -> getAllChunks (batchInsert d rows) = getAllChunks d ++ rows.
Proof.
  intros. unfold getAllChunks. simpl. by rewrite concat_app, chunk_rows_concat.
Qed.

(** Appended rows follow the rows already stored. *)
Lemma getAllChunks_append d rows :
  0 < chunkSize d -> getAllChunks (append d rows) = getAllChunks d ++ rows.
Proof.
  intros Hs. unfold getAllChunks, append.
  destruct (last (chunks d)) as [final|] eqn:Hlast.
  - apply last_Some in Hlast as [init Hinit]. rewrite Hinit.
    cbn [chunks]. rewrite length_app, Nat.add_sub, take_app_length.
    rewrite !concat_app. simpl. rewrite chunk_rows_concat by done.
    by rewrite app_nil_r, <- !app_assoc, take_drop.
  - apply last_None in Hlast. rewrite Hlast. simpl.
    by apply chunk_rows_concat.
Qed.

Lemma stored_rows_concat d : stored_rows d = length (getAllChunks d).
Proof. apply sum_list_length_concat. Qed.

Lemma createDataset_consistent (size : nat) :
  0 < size -> consistent (createDataset (Row:=Row) size).
Proof. intros. repeat split; simpl; [done | constructor]. Qed.

Lemma batchInsert_counted d rows : counted d -> counted (batchInsert d rows).
Proof.
  intros (Hs & Hr & Hc). unfold counted.
  rewrite stored_rows_concat, getAllChunks_batchInsert by done.
  rewrite length_app, <- stored_rows_concat. simpl.
  rewrite length_app. split_and!; [done | lia | lia].
Qed.

Lemma append_chunks d rows :
  length (chunks (append d rows))
  = length (chunks d)
    + length (chunk_rows (chunkSize d)
                (drop (match last (chunks d) with
                       | Some final => chunkSize d - length final
                       | None => 0
                       end) rows)).
Proof.
  unfold append. destruct (last (chunks d)) as [final|] eqn:Hlast.
  - apply last_Some in Hlast as [init ->]. simpl.
    replace (length (init ++ [final]) - 1) with (length init)
      by (rewrite length_app; simpl; lia).
    rewrite take_app_length, !length_app. simpl. lia.
  - apply last_None in Hlast. by rewrite Hlast.
Qed.

Lemma append_counted d rows : counted d -> counted (append d rows).
Proof.
  intros (Hs & Hr & Hc). unfold counted.
  rewrite stored_rows_concat, getAllChunks_append by done.
  rewrite length_app, <- stored_rows_concat, append_chunks.
  unfold append. destruct (last (chunks d)); simpl.
  - split_and!; [done | lia | lia].
  - rewrite drop_0. split_and!; [done | lia | lia].
Qed.

Lemma populated_counted d : populated d -> counted d.
Proof.
  induction 1 as [size Hs|d o _ IH].
  - by repeat split.
  - destruct o as [rows|rows]; simpl.
    + by apply batchInsert_counted.
    + by apply append_counted.
Qed.

(** A chunk list whose final chunk is full has only full chunks. *)
Lemma well_chunked_full (size : nat) cks :
  well_chunked size cks ->
  match last cks with
  | None => True
  | Some final => length final = size
  end ->
  Forall (fun c => length c = size) cks.
Proof.
  intros [|init final Hinit Hfinal]; [by constructor|].
  rewrite last_snoc. intros Hfull.
  apply Forall_app. split; [done|]. by repeat constructor.
Qed.

Lemma batchInsert_consistent d rows :
  consistent d -> final_chunk_full d -> consistent (batchInsert d rows).
Proof.
  intros (Hs & Hw & Hr & Hc) Hfull.
  destruct (batchInsert_counted d rows) as (_ & Hr' & Hc'); [done|].
  split_and!; [done | | done | done].
  simpl. destruct (chunk_rows (chunkSize d) rows) as [|c written] eqn:E.
  - by rewrite app_nil_r.
  - apply well_chunked_app; [by apply well_chunked_full | done |].
    rewrite <- E. by apply chunk_rows_shape.
Qed.

Lemma append_consistent d rows :
  consistent d -> consistent (append d rows).
Proof.
  intros (Hs & Hw & Hr & Hc).
  destruct (append_counted d rows) as (Hs' & Hr' & Hc'); [done|].
  split_and!; [done | | done | done].
  assert (chunkSize (append d rows) = chunkSize d) as ->
    by (unfold append; by destruct (last (chunks d))).
  unfold append. destruct Hw as [|init final Hinit Hfinal].
  - simpl. by apply chunk_rows_shape.
  - rewrite last_snoc. cbn [chunkSize chunks].
    rewrite length_app, Nat.add_sub, take_app_length.
    set (size := chunkSize d) in *.
    set (spare := size - length final).
    assert (Hfill : 0 < length (final ++ take spare rows) <= size)
      by (rewrite length_app, length_take; lia).
    destruct (chunk_rows size (drop spare rows)) as [|c fresh] eqn:E.
    + by constructor.
    + apply well_chunked_app; [done | done |].
      apply well_chunked_cons; [| done |].
      * assert (Hd : drop spare rows <> []) by (intros Hd; by rewrite Hd in E).
        assert (spare < length rows).
        { destruct (decide (length rows <= spare)); [|lia].
          by rewrite drop_ge in Hd. }
        rewrite length_app, length_take. lia.
      * rewrite <- E. by apply chunk_rows_shape.
Qed.

Lemma run_op_consistent d o :
  consistent d -> extends_final d o -> consistent (run_op d o).
Proof.
  intros Hd Ho. destruct o as [rows|rows]; simpl.
  - by apply batchInsert_consistent.
  - by apply append_consistent.
Qed.

End StorageFacts.




(** The scenario of the specification: three rows with chunkSize 2 give
    chunks [row0,row1] and [row2]; appending one row fills the second chunk
    and allocates no new one. *)
Example batchInsert_scenario :
  Storage.batchInsert (Storage.createDataset 2) [10; 11; 12]%nat
  = Storage.mkDataset 2 3 2 [[10; 11]; [12]]%nat.
Proof. reflexivity. Qed.

Example append_scenario :
  Storage.append (Storage.mkDataset 2 3 2 [[10; 11]; [12]]%nat) [13%nat]
  = Storage.mkDataset 2 4 2 [[10; 11]; [12; 13]]%nat.
Proof. reflexivity. Qed.

(* ===================================================================== *)
(** ** Facts about Array.prototype.sort *)
(* ===================================================================== *)

Section SortFacts.
Context {A : Type}.
Variable cmp : A -> A -> Z.

Lemma insert_perm (x : A) (l : list A) : JS.insert cmp x l ≡ₚ x :: l.
Proof.
  induction l as [|y l IH]; simpl; [done|].
  destruct (Z.ltb 0 (cmp x y)); [|done].
  rewrite IH. apply Permutation_swap.
Qed.

Lemma sort_perm (l : list A) : JS.sort cmp l ≡ₚ l.
Proof.
  induction l as [|x l IH]; simpl; [done|].
  by rewrite insert_perm, IH.
Qed.

Lemma sort_length (l : list A) : length (JS.sort cmp l) = length l.
Proof. by rewrite sort_perm. Qed.

Lemma sort_elem_of (x : A) (l : list A) : x ∈ JS.sort cmp l <-> x ∈ l.
Proof. by rewrite sort_perm. Qed.

(** Stability: elements that the comparator does not order keep their
    input order. *)
Lemma insert_stable (p : A -> bool) (x : A) (l : list A) :
  (forall y z, p y = true -> p z = true -> cmp y z <= 0) ->
  List.filter p (JS.insert cmp x l) = List.filter p (x :: l).
Proof.
  intros Hp. induction l as [|y l IH]; [done|].
  cbn [JS.insert]. destruct (Z.ltb_spec 0 (cmp x y)) as [Hlt|Hge]; [|done].
  simpl in *. rewrite IH.
  destruct (p x) eqn:Hx, (p y) eqn:Hy; try done.
  specialize (Hp x y Hx Hy). lia.
Qed.

Lemma sort_stable (p : A -> bool) (l : list A) :
  (forall y z, p y = true -> p z = true -> cmp y z <= 0) ->
  List.filter p (JS.sort cmp l) = List.filter p l.
Proof.
  intros Hp. induction l as [|x l IH]; [done|].
  cbn [JS.sort]. rewrite insert_stable by done.
  simpl. by rewrite IH.
Qed.

(** A consistent comparator never asks for both [x] after [y] and [y]
    after [x]. *)
Hypothesis cmp_consistent : forall x y, 0 < cmp x y -> cmp y x <= 0.

Lemma insert_sorted (x : A) (l : list A) :
  Sorted (JS.in_order cmp) l -> Sorted (JS.in_order cmp) (JS.insert cmp x l).
Proof.
  induction 1 as [|y l Hl IH Hy]; simpl.
  - by repeat constructor.
  - destruct (Z.ltb_spec 0 (cmp x y)) as [Hlt|Hge].
    + constructor; [done|].
      destruct Hy as [|z l Hyz]; simpl.
      * constructor. by apply cmp_consistent.
      * destruct (Z.ltb 0 (cmp x z)); constructor; [done|].
        by apply cmp_consistent.
    + constructor; [by constructor|]. by constructor.
Qed.

Lemma sort_sorted (l : list A) : Sorted (JS.in_order cmp) (JS.sort cmp l).
Proof.
  induction l as [|x l IH]; simpl; [constructor|]. by apply insert_sorted.
Qed.

End SortFacts.

Lemma Sorted_weaken {A} (R1 R2 : relation A) (l : list A) :
  (forall x y, R1 x y -> R2 x y) -> Sorted R1 l -> Sorted R2 l.
Proof.
  intros HR. induction 1 as [|x l _ IH Hx]; constructor; [done|].
  destruct Hx; constructor. by apply HR.
Qed.

(* ===================================================================== *)
(** ** Facts about the top-N step *)
(* ===================================================================== *)

Section TopNFacts.
Import Aggregation.
Implicit Types (groups : list Group).

(** The sum of the values of a list of groups, as a sum over the list. *)
Local Abbreviation sum_values groups := (foldr Qcplus 0%Qc (value <$> groups)).

Lemma fold_left_total groups (start : Qc) :
  fold_left (fun sum g => (sum + value g)%Qc) groups start
  = (start + sum_values groups)%Qc.
Proof.
  revert start. induction groups as [|g groups IH]; intros start; csimpl.
  - ring.
  - rewrite IH. ring.
Qed.

Lemma total_sum groups : total groups = sum_values groups.
Proof. unfold total. rewrite fold_left_total. ring. Qed.

Lemma sum_values_app groups1 groups2 :
  sum_values (groups1 ++ groups2) = (sum_values groups1 + sum_values groups2)%Qc.
Proof.
  induction groups1 as [|g groups1 IH]; csimpl.
  - ring.
  - rewrite IH. ring.
Qed.

Lemma sum_values_perm groups1 groups2 :
  groups1 ≡ₚ groups2 -> sum_values groups1 = sum_values groups2.
Proof.
  induction 1 as [|g l1 l2 _ IH|g1 g2 l|l1 l2 l3 _ IH1 _ IH2]; csimpl.
  - done.
  - by rewrite IH.
  - ring.
  - by rewrite IH1.
Qed.

Lemma compare_values_le (x y : Qc) : compare_values x y <= 0 <-> (x <= y)%Qc.
Proof.
  unfold compare_values. rewrite Qcle_alt.
  destruct (x ?= y)%Qc; split; try done; lia.
Qed.

Lemma compare_values_consistent (x y : Qc) :
  0 < compare_values x y -> compare_values y x <= 0.
Proof.
  intros Hxy. apply compare_values_le.
  destruct (Qclt_le_dec x y) as [Hlt|Hle]; [|done].
  apply Qclt_le_weak, compare_values_le in Hlt. lia.
Qed.

Lemma rank_perm groups : rank groups ≡ₚ groups.
Proof. apply sort_perm. Qed.

Lemma rank_sorted groups :
  StronglySorted (fun a b => (value b <= value a)%Qc) (rank groups).
Proof.
  apply Sorted_StronglySorted.
  { intros a b c Hab Hbc. by apply Qcle_trans with (value b). }
  eapply Sorted_weaken; [|apply sort_sorted].
  - intros a b. unfold JS.in_order. apply compare_values_le.
  - intros a b. apply compare_values_consistent.
Qed.

End TopNFacts.

(** C2. With a top-N limit N over M > N groups the result has exactly
    N + 1 entries: the N groups of largest value, then one entry named
    Others whose value is the sum of the values of the excluded groups,
    which is the sum of the values of all groups minus the sum of the N
    returned group values. *)
Theorem topN_with_others (n : nat) (groups : list Aggregation.Group) :
  (n < length groups)%nat ->
  exists kept excluded others,
    Aggregation.applyTopN (Some n) groups = kept ++ [others] /\
    length (Aggregation.applyTopN (Some n) groups) = (n + 1)%nat /\
    length kept = n /\
    kept ++ excluded ≡ₚ groups /\
    (forall k e, k ∈ kept -> e ∈ excluded ->
       (Aggregation.value e <= Aggregation.value k)%Qc) /\
    Aggregation.name others = "Others"%string /\
    Aggregation.value others = foldr Qcplus 0%Qc (Aggregation.value <$> excluded) /\
    Aggregation.value others
    = (foldr Qcplus 0%Qc (Aggregation.value <$> groups)
       - foldr Qcplus 0%Qc (Aggregation.value <$> kept))%Qc.
Proof.
  intros Hn.
  pose proof (rank_perm groups) as Hperm.
  pose proof (rank_sorted groups) as Hsorted.
  assert (Hlen : length (Aggregation.rank groups) = length groups)
    by by rewrite Hperm.
  exists (take n (Aggregation.rank groups)), (drop n (Aggregation.rank groups)).
  exists (Aggregation.mkGroup "Others"
            (Aggregation.total (drop n (Aggregation.rank groups)))).
  assert (Hres : Aggregation.applyTopN (Some n) groups
                 = take n (Aggregation.rank groups)
                     ++ [Aggregation.mkGroup "Others"
                           (Aggregation.total (drop n (Aggregation.rank groups)))]).
  { unfold Aggregation.applyTopN.
    destruct (drop n (Aggregation.rank groups)) as [|g rest] eqn:E; [|done].
    apply (f_equal length) in E. rewrite length_drop in E. simpl in E. lia. }
  assert (Hkept : length (take n (Aggregation.rank groups)) = n)
    by (rewrite length_take; lia).
  split_and!; try done.
  - rewrite Hres, length_app, Hkept. done.
  - by rewrite take_drop.
  - intros k e Hk He.
    rewrite <- (take_drop n (Aggregation.rank groups)) in Hsorted.
    by apply (StronglySorted_app_1_elem_of _ _ _ _ _ Hsorted).
  - apply total_sum.
  - simpl. rewrite total_sum, <- (sum_values_perm _ _ Hperm).
    rewrite <- (take_drop n (Aggregation.rank groups)) at 2.
    rewrite sum_values_app. ring.
Qed.

Lemma topN_with_others_witness :
  (2 < length SampleHost.averages)%nat /\
  exists kept others,
    Aggregation.applyTopN (Some 2%nat) SampleHost.averages = kept ++ [others] /\
    Aggregation.value others
    = (foldr Qcplus 0%Qc (Aggregation.value <$> SampleHost.averages)
       - foldr Qcplus 0%Qc (Aggregation.value <$> kept))%Qc.
Proof.
  assert (H : (2 < length SampleHost.averages)%nat) by (simpl; lia).
  split; [exact H|].
  destruct (topN_with_others 2 _ H)
    as (kept & excluded & others & H1 & _ & _ & _ & _ & _ & _ & H2).
  exists kept, others. split; assumption.
Defined.

(** Four groups with the averages 1, 5/2, 3 and 1/2: the two largest are
    kept, and Others holds 1 + 1/2. *)
Example topN_sample :
  Aggregation.name <$> Aggregation.applyTopN (Some 2%nat) SampleHost.averages
  = ["ig"; "fb"; "Others"]%string /\
  (fun g => this (Aggregation.value g))
    <$> Aggregation.applyTopN (Some 2%nat) SampleHost.averages
  = [3 # 1; 5 # 2; 3 # 2]%Q.
Proof. split; vm_compute; reflexivity. Qed.

(* ===================================================================== *)
(** ** Facts about applySorting *)
(* ===================================================================== *)

Lemma SampleHost_localeCompare_consistent (x y : string) :
  0 < SampleHost.localeCompare x y -> SampleHost.localeCompare y x <= 0.
Proof.
  unfold SampleHost.localeCompare. rewrite (String.compare_antisym y x).
  destruct (String.compare x y); simpl; lia.
Qed.

(** C7. The sort step has the five orders value descending, value
    ascending, name ascending, name descending and original. Each of them
    returns a permutation of the entries, arranged by decreasing value, by
    increasing value, by increasing name, by decreasing name, and left in
    the input order, respectively; the value of an entry is the number it
    holds under the value key, 0 if it holds none, and entries of equal
    value keep their input order under the two value orders. *)
Theorem applySorting_orders (localeCompare : string -> string -> Z)
  (data : list ChartBuilder.entry) (valueKey : string) :
  (forall x y, 0 < localeCompare x y -> localeCompare y x <= 0) ->
  (forall order, ChartBuilder.applySorting localeCompare data order valueKey ≡ₚ data) /\
  StronglySorted
    (fun a b => default 0 (ChartBuilder.fields b !! valueKey)
                <= default 0 (ChartBuilder.fields a !! valueKey))
    (ChartBuilder.applySorting localeCompare data ChartBuilder.value_desc valueKey) /\
  StronglySorted
    (fun a b => default 0 (ChartBuilder.fields a !! valueKey)
                <= default 0 (ChartBuilder.fields b !! valueKey))
    (ChartBuilder.applySorting localeCompare data ChartBuilder.value_asc valueKey) /\
  (forall order v,
     order = ChartBuilder.value_desc \/ order = ChartBuilder.value_asc ->
     List.filter (fun e => default 0 (ChartBuilder.fields e !! valueKey) =? v)
       (ChartBuilder.applySorting localeCompare data order valueKey)
     = List.filter (fun e => default 0 (ChartBuilder.fields e !! valueKey) =? v) data) /\
  Sorted
    (fun a b => localeCompare (ChartBuilder.name a) (ChartBuilder.name b) <= 0)
    (ChartBuilder.applySorting localeCompare data ChartBuilder.name_asc valueKey) /\
  Sorted
    (fun a b => localeCompare (ChartBuilder.name b) (ChartBuilder.name a) <= 0)
    (ChartBuilder.applySorting localeCompare data ChartBuilder.name_desc valueKey) /\
  ChartBuilder.applySorting localeCompare data ChartBuilder.original valueKey = data.
Proof.
  intros Hlc. split_and!.
  - intros []; simpl; solve [apply sort_perm | done].
  - apply Sorted_StronglySorted; [intros a b c; lia|].
    eapply Sorted_weaken; [|apply sort_sorted].
    + intros a b. unfold JS.in_order, ChartBuilder.field. lia.
    + intros a b. simpl. lia.
  - apply Sorted_StronglySorted; [intros a b c; lia|].
    eapply Sorted_weaken; [|apply sort_sorted].
    + intros a b. unfold JS.in_order, ChartBuilder.field. lia.
    + intros a b. simpl. lia.
  - intros order v [-> | ->]; simpl; apply sort_stable;
      intros y z Hy%Z.eqb_eq Hz%Z.eqb_eq; unfold ChartBuilder.field; lia.
  - apply (sort_sorted (fun a b => localeCompare (ChartBuilder.name a) (ChartBuilder.name b))).
    intros a b. apply Hlc.
  - apply (sort_sorted (fun a b => localeCompare (ChartBuilder.name b) (ChartBuilder.name a))).
    intros a b. apply Hlc.
  - done.
Qed.

Lemma applySorting_orders_witness :
  (forall x y, 0 < SampleHost.localeCompare x y -> SampleHost.localeCompare y x <= 0) /\
  StronglySorted
    (fun a b => default 0 (ChartBuilder.fields b !! "n"%string)
                <= default 0 (ChartBuilder.fields a !! "n"%string))
    (ChartBuilder.applySorting SampleHost.localeCompare
       [ChartBuilder.mkEntry "tw" {["n" := 1]}; ChartBuilder.mkEntry "fb" {["n" := 5]};
        ChartBuilder.mkEntry "ig" ∅]
       ChartBuilder.value_desc "n").
Proof.
  split; [exact SampleHost_localeCompare_consistent|].
  exact (proj1 (proj2
           (applySorting_orders SampleHost.localeCompare
              [ChartBuilder.mkEntry "tw" {["n" := 1]};
               ChartBuilder.mkEntry "fb" {["n" := 5]};
               ChartBuilder.mkEntry "ig" ∅] "n"
              SampleHost_localeCompare_consistent))).
Defined.

Example applySorting_sample :
  ChartBuilder.name <$>
    ChartBuilder.applySorting SampleHost.localeCompare
      [ChartBuilder.mkEntry "tw" {["n" := 1]}; ChartBuilder.mkEntry "fb" {["n" := 5]};
       ChartBuilder.mkEntry "ig" ∅] ChartBuilder.value_desc "n"
  = ["fb"; "tw"; "ig"]%string /\
  ChartBuilder.name <$>
    ChartBuilder.applySorting SampleHost.localeCompare
      [ChartBuilder.mkEntry "tw" {["n" := 1]}; ChartBuilder.mkEntry "fb" {["n" := 5]};
       ChartBuilder.mkEntry "ig" ∅] ChartBuilder.value_asc "n"
  = ["ig"; "tw"; "fb"]%string /\
  ChartBuilder.name <$>
    ChartBuilder.applySorting SampleHost.localeCompare
      [ChartBuilder.mkEntry "tw" {["n" := 1]}; ChartBuilder.mkEntry "fb" {["n" := 5]};
       ChartBuilder.mkEntry "ig" ∅] ChartBuilder.name_asc "n"
  = ["fb"; "ig"; "tw"]%string /\
  ChartBuilder.name <$>
    ChartBuilder.applySorting SampleHost.localeCompare
      [ChartBuilder.mkEntry "tw" {["n" := 1]}; ChartBuilder.mkEntry "fb" {["n" := 5]};
       ChartBuilder.mkEntry "ig" ∅] ChartBuilder.name_desc "n"
  = ["tw"; "ig"; "fb"]%string.
Proof. repeat split; vm_compute; reflexivity. Qed.

(* ===================================================================== *)
(** ** Facts about strings, sets and local time *)
(* ===================================================================== *)

Lemma nonempty_true (s : string) : JS.nonempty s = true <-> s <> EmptyString.
Proof.
  unfold JS.nonempty. rewrite negb_true_iff. apply String.eqb_neq.
Qed.

Lemma nonempty_false (s : string) : JS.nonempty s = false <-> s = EmptyString.
Proof.
  unfold JS.nonempty. rewrite negb_false_iff. apply String.eqb_eq.
Qed.

Lemma ascii_compare_lt_trans (a b c : ascii) :
  Ascii.compare a b = Lt -> Ascii.compare b c = Lt -> Ascii.compare a c = Lt.
Proof.
  unfold Ascii.compare. rewrite !N.compare_lt_iff. lia.
Qed.

Lemma string_compare_lt_trans (a b c : string) :
  String.compare a b = Lt -> String.compare b c = Lt -> String.compare a c = Lt.
Proof.
  revert b c. induction a as [|x a IH]; intros [|y b] [|z c]; simpl; try done.
  destruct (Ascii.compare x y) eqn:Exy; try done;
    destruct (Ascii.compare y z) eqn:Eyz; try done; intros Hab Hbc.
  - apply Ascii.compare_eq_iff in Exy, Eyz. subst.
    assert (Ascii.compare z z = Eq) as ->.
    { unfold Ascii.compare. apply N.compare_refl. }
    by apply (IH b).
  - apply Ascii.compare_eq_iff in Exy. subst. by rewrite Eyz.
  - apply Ascii.compare_eq_iff in Eyz. subst. by rewrite Exy.
  - by rewrite (ascii_compare_lt_trans x y z).
Qed.

Lemma string_ltb_trans (a b c : string) :
  String.ltb a b = true -> String.ltb b c = true -> String.ltb a c = true.
Proof.
  unfold String.ltb. intros Hab Hbc.
  destruct (String.compare a b) eqn:Eab; try done.
  destruct (String.compare b c) eqn:Ebc; try done.
  by rewrite (string_compare_lt_trans a b c).
Qed.

Lemma string_ltb_irrefl (a : string) : String.ltb a a = false.
Proof.
  unfold String.ltb.
  pose proof (String.compare_antisym a a) as H.
  by destruct (String.compare a a).
Qed.

Lemma default_compare_consistent (x y : string) :
  0 < JS.default_compare x y -> JS.default_compare y x <= 0.
Proof.
  unfold JS.default_compare.
  destruct (String.ltb x y) eqn:Exy, (String.ltb y x) eqn:Eyx; lia.
Qed.

Lemma default_compare_in_order (x y : string) :
  JS.in_order JS.default_compare x y -> x <> y -> String.ltb x y = true.
Proof.
  unfold JS.in_order, JS.default_compare, String.ltb.
  rewrite (String.compare_antisym y x).
  destruct (String.compare x y) eqn:E; simpl; intros H Hne.
  - by apply String.compare_eq_iff in E.
  - done.
  - lia.
Qed.

Lemma Set_add_elem_of (acc : list string) (x y : string) :
  y ∈ JS.Set_add acc x <-> y ∈ acc \/ y = x.
Proof.
  unfold JS.Set_add. case_bool_decide as Hx; [|set_solver].
  split; [by left|]. intros [?| ->]; done.
Qed.

Lemma Set_add_NoDup (acc : list string) (x : string) :
  NoDup acc -> NoDup (JS.Set_add acc x).
Proof.
  intros Hacc. unfold JS.Set_add. case_bool_decide as Hx; [done|].
  apply NoDup_app. split_and!; [done | set_solver | apply NoDup_singleton].
Qed.

Lemma foldl_Set_add_elem_of (l acc : list string) (y : string) :
  y ∈ foldl JS.Set_add acc l <-> y ∈ acc \/ y ∈ l.
Proof.
  revert acc. induction l as [|x l IH]; intros acc; simpl; [set_solver|].
  rewrite IH, Set_add_elem_of. set_solver.
Qed.

Lemma foldl_Set_add_NoDup (l acc : list string) :
  NoDup acc -> NoDup (foldl JS.Set_add acc l).
Proof.
  revert acc. induction l as [|x l IH]; intros acc Hacc; simpl; [done|].
  by apply IH, Set_add_NoDup.
Qed.

Lemma Set_from_elem_of (l : list string) (y : string) :
  y ∈ JS.Set_from l <-> y ∈ l.
Proof. unfold JS.Set_from. rewrite foldl_Set_add_elem_of. set_solver. Qed.

Lemma Set_from_NoDup (l : list string) : NoDup (JS.Set_from l).
Proof. apply foldl_Set_add_NoDup, NoDup_nil_2. Qed.

Lemma elem_of_List_filter {A} (p : A -> bool) (l : list A) (x : A) :
  x ∈ List.filter p l <-> x ∈ l /\ p x = true.
Proof. rewrite !list_elem_of_In. apply filter_In. Qed.

Lemma List_filter_NoDup {A} (p : A -> bool) (l : list A) :
  NoDup l -> NoDup (List.filter p l).
Proof.
  induction 1 as [|x l Hx _ IH]; simpl; [constructor|].
  destruct (p x); [|done]. constructor; [|done].
  rewrite elem_of_List_filter. tauto.
Qed.

Lemma filter_foldl_Set_add (p : string -> bool) (l acc : list string) :
  List.filter p (foldl JS.Set_add acc l)
  = foldl JS.Set_add (List.filter p acc) (List.filter p l).
Proof.
  revert acc. induction l as [|x l IH]; intros acc; simpl; [done|].
  rewrite IH. destruct (p x) eqn:Hp; simpl; f_equal; unfold JS.Set_add.
  - case_bool_decide as H1; case_bool_decide as H2; try done.
    + exfalso. apply H2. by apply elem_of_List_filter.
    + exfalso. apply H1. by apply elem_of_List_filter in H2 as [? _].
    + rewrite List.filter_app. simpl. by rewrite Hp.
  - case_bool_decide; [done|].
    rewrite List.filter_app. simpl. rewrite Hp. by rewrite app_nil_r.
Qed.

Lemma Sorted_strict (l : list string) :
  Sorted (JS.in_order JS.default_compare) l -> NoDup l ->
  StronglySorted (fun x y => String.ltb x y = true) l.
Proof.
  intros Hs Hn. apply Sorted_StronglySorted.
  { intros a b c. apply string_ltb_trans. }
  induction Hs as [|x l _ IH Hx]; [constructor|].
  apply NoDup_cons in Hn as [Hxl Hn].
  constructor; [by apply IH|].
  destruct Hx as [|y l Hxy]; constructor.
  apply default_compare_in_order; [done|]. set_solver.
Qed.

Section ZoneFacts.
Import JS.
Variable LocalTZA : Z -> bool -> Z.

Lemma LocalTime_setHours (t h m s ms : Z) :
  local_exists LocalTZA (MakeDate (Day (LocalTime LocalTZA t)) (MakeTime h m s ms)) ->
  LocalTime LocalTZA (setHours LocalTZA t h m s ms)
  = Day (LocalTime LocalTZA t) * msPerDay + MakeTime h m s ms.
Proof. intros H. unfold setHours. by rewrite H. Qed.

Lemma local_part (D time q n k : Z) :
  msPerDay = k * n * q ->
  ((D * msPerDay + time) / q) mod n = (time / q) mod n.
Proof.
  intros Hk. assert (q <> 0) by (unfold msPerDay in Hk; lia).
  assert (n <> 0) by (unfold msPerDay in Hk; lia).
  rewrite Hk.
  replace (D * (k * n * q) + time) with (time + (D * k * n) * q) by lia.
  rewrite Z.div_add by done.
  replace (D * k * n) with ((D * k) * n) by lia.
  by rewrite Z.mod_add.
Qed.

Lemma Day_within (D time : Z) :
  0 <= time < msPerDay -> Day (D * msPerDay + time) = D.
Proof.
  intros Hr. unfold Day.
  rewrite Z.add_comm, Z.div_add by done.
  rewrite Z.div_small by done. lia.
Qed.

(** The parts of the local time [D * msPerDay + MakeTime h m s ms]. *)
Lemma local_parts (D h m s ms : Z) :
  0 <= h < 24 -> 0 <= m < 60 -> 0 <= s < 60 -> 0 <= ms < 1000 ->
  let t := D * msPerDay + MakeTime h m s ms in
  Day t = D /\ HourFromTime t = h /\ MinFromTime t = m /\
  SecFromTime t = s /\ msFromTime t = ms.
Proof.
  intros Hh Hm Hs Hms t. unfold t, HourFromTime, MinFromTime, SecFromTime, msFromTime.
  split_and!.
  - apply Day_within. unfold MakeTime, msPerDay, msPerHour, msPerMinute, msPerSecond. lia.
  - rewrite (local_part _ _ msPerHour 24 1) by done.
    unfold MakeTime, msPerHour, msPerMinute, msPerSecond.
    replace (h * 3600000 + m * 60000 + s * 1000 + ms)
      with ((m * 60000 + s * 1000 + ms) + h * 3600000) by lia.
    rewrite Z.div_add, Z.div_small by lia. rewrite Z.mod_small; lia.
  - rewrite (local_part _ _ msPerMinute 60 24) by done.
    unfold MakeTime, msPerHour, msPerMinute, msPerSecond.
    replace (h * 3600000 + m * 60000 + s * 1000 + ms)
      with ((s * 1000 + ms) + (h * 60 + m) * 60000) by lia.
    rewrite Z.div_add, Z.div_small by lia.
    replace (0 + (h * 60 + m)) with (m + h * 60) by lia.
    rewrite Z.mod_add by lia. rewrite Z.mod_small; lia.
  - rewrite (local_part _ _ msPerSecond 60 1440) by done.
    unfold MakeTime, msPerHour, msPerMinute, msPerSecond.
    replace (h * 3600000 + m * 60000 + s * 1000 + ms)
      with (ms + (h * 3600 + m * 60 + s) * 1000) by lia.
    rewrite Z.div_add, Z.div_small by lia.
    replace (0 + (h * 3600 + m * 60 + s)) with (s + (h * 60 + m) * 60) by lia.
    rewrite Z.mod_add by lia. rewrite Z.mod_small; lia.
  - unfold MakeTime, msPerDay, msPerHour, msPerMinute, msPerSecond.
    replace (D * 86400000 + (h * 3600000 + m * 60000 + s * 1000 + ms))
      with (ms + (D * 86400 + h * 3600 + m * 60 + s) * 1000) by lia.
    rewrite Z.mod_add by lia. rewrite Z.mod_small; lia.
Qed.

(** setHours puts the date at the given time of its local day, if that
    local time exists. *)
Lemma setHours_parts (t h m s ms : Z) :
  0 <= h < 24 -> 0 <= m < 60 -> 0 <= s < 60 -> 0 <= ms < 1000 ->
  local_exists LocalTZA (MakeDate (Day (LocalTime LocalTZA t)) (MakeTime h m s ms)) ->
  let u := setHours LocalTZA t h m s ms in
  Day (LocalTime LocalTZA u) = Day (LocalTime LocalTZA t) /\
  getHours LocalTZA u = h /\ getMinutes LocalTZA u = m /\
  getSeconds LocalTZA u = s /\ getMilliseconds LocalTZA u = ms.
Proof.
  intros Hh Hm Hs Hms Hex u.
  unfold u, getHours, getMinutes, getSeconds, getMilliseconds.
  rewrite LocalTime_setHours by done. by apply local_parts.
Qed.

End ZoneFacts.

(* ===================================================================== *)
(** ** Facts about the dashboard filters *)
(* ===================================================================== *)

Section FilterFacts.
Import JS Analytics.
Variable Date_parse : string -> option Z.
Variable Date_toString : option Z -> string.
Variable toLowerCase : string -> string.
Variable LocalTZA : Z -> bool -> Z.

Local Abbreviation toDateValue := (Analytics.toDateValue Date_parse Date_toString).
Local Abbreviation String_ := (Analytics.String_ Date_toString).
Local Abbreviation normalizeRangeStart :=
  (Analytics.normalizeRangeStart Date_parse Date_toString LocalTZA).
Local Abbreviation normalizeRangeEnd :=
  (Analytics.normalizeRangeEnd Date_parse Date_toString LocalTZA).
Local Abbreviation matchesFilterCondition :=
  (Analytics.matchesFilterCondition Date_parse Date_toString toLowerCase LocalTZA).
Local Abbreviation every :=
  (Analytics.every Date_parse Date_toString toLowerCase LocalTZA).
Local Abbreviation filteredData :=
  (Analytics.filteredData Date_parse Date_toString toLowerCase LocalTZA).
Local Abbreviation applyWidgetFilters :=
  (Analytics.applyWidgetFilters Date_parse Date_toString toLowerCase LocalTZA).

Implicit Types (row : RawRow) (filter : DashboardFilter).

Lemma normalizeRangeStart_Some (v : option string) (s : Z) :
  normalizeRangeStart v = Some s ->
  exists text d, v = Some text /\ text <> EmptyString /\
    toDateValue (VStr text) = Some d /\ s = setHours LocalTZA d 0 0 0 0.
Proof.
  unfold Analytics.normalizeRangeStart. destruct v as [text|]; [|done].
  destruct (nonempty text) eqn:Hne; [|done].
  destruct (toDateValue (VStr text)) as [d|] eqn:Hd; [|done].
  intros [= <-]. exists text, d. by rewrite <- nonempty_true.
Qed.

Lemma normalizeRangeEnd_Some (v : option string) (e : Z) :
  normalizeRangeEnd v = Some e ->
  exists text d, v = Some text /\ text <> EmptyString /\
    toDateValue (VStr text) = Some d /\ e = setHours LocalTZA d 23 59 59 999.
Proof.
  unfold Analytics.normalizeRangeEnd. destruct v as [text|]; [|done].
  destruct (nonempty text) eqn:Hne; [|done].
  destruct (toDateValue (VStr text)) as [d|] eqn:Hd; [|done].
  intros [= <-]. exists text, d. by rewrite <- nonempty_true.
Qed.

Lemma before_true (rowDate : Z) (bound : option Z) :
  before rowDate bound = true <-> exists b, bound = Some b /\ rowDate < b.
Proof.
  destruct bound as [b|]; simpl.
  - rewrite Z.ltb_lt. naive_solver.
  - naive_solver.
Qed.

Lemma after_true (rowDate : Z) (bound : option Z) :
  after rowDate bound = true <-> exists b, bound = Some b /\ b < rowDate.
Proof.
  destruct bound as [b|]; simpl.
  - rewrite Z.ltb_lt. naive_solver.
  - naive_solver.
Qed.

(** The date branch of the filter, for a filter that names a column. *)
Lemma matches_date row filter :
  column filter <> EmptyString -> dataType filter = Some date ->
  matchesFilterCondition row filter =
    match toDateValue (get row (column filter)) with
    | None => false
    | Some rowDate =>
        negb (before rowDate (normalizeRangeStart (Some (value filter))))
        && negb (after rowDate (normalizeRangeEnd (endValue filter)))
    end.
Proof.
  intros Hc Ht. unfold Analytics.matchesFilterCondition.
  apply nonempty_true in Hc. rewrite Hc, Ht. simpl.
  destruct (toDateValue _) as [rowDate|]; [|done].
  by destruct (before _ _), (after _ _).
Qed.

(** The categorical branch, for a filter that names a column. *)
Lemma matches_text row filter :
  column filter <> EmptyString -> dataType filter <> Some date ->
  value filter <> EmptyString ->
  matchesFilterCondition row filter =
    String.eqb (toLowerCase (String_ (nullish (get row (column filter)) (VStr ""))))
               (toLowerCase (value filter)).
Proof.
  intros Hc Ht Hv. unfold Analytics.matchesFilterCondition.
  apply nonempty_true in Hc, Hv. rewrite Hc, Hv. simpl.
  destruct (dataType filter) as [[]|]; simpl; done.
Qed.


(** C4, as the code has it. For a categorical filter that names a column
    and has a non-empty value, the row passes exactly when the string form
    of its value, a missing or null value counting as the empty string,
    equals the filter value after both are lower-cased. *)
Theorem categorical_filter row filter :
  column filter <> EmptyString -> dataType filter <> Some date ->
  value filter <> EmptyString ->
  (matchesFilterCondition row filter = true <->
   toLowerCase (String_ (nullish (get row (column filter)) (VStr "")))
   = toLowerCase (value filter)).
Proof.
  intros Hc Ht Hv. rewrite matches_text by done. apply String.eqb_eq.
Qed.

(** C8, as the code has it. For a date filter that names a column, a row
    whose value does not parse as a date is excluded whatever the bounds
    are, in particular when neither is set; and when neither bound is set
    every row whose value parses as a date is accepted. *)
Theorem date_filter_without_bounds row filter :
  column filter <> EmptyString -> dataType filter = Some date ->
  (toDateValue (get row (column filter)) = None ->
   matchesFilterCondition row filter = false) /\
  (value filter = EmptyString ->
   endValue filter = None \/ endValue filter = Some EmptyString ->
   (matchesFilterCondition row filter = true <->
    is_Some (toDateValue (get row (column filter))))).
Proof.
  intros Hc Ht. rewrite matches_date by done. split.
  - by intros ->.
  - intros Hv He. rewrite Hv.
    assert (normalizeRangeEnd (endValue filter) = None) as ->
      by (by destruct He as [-> | ->]).
    simpl. destruct (toDateValue _); simpl; split; try done.
    all: by intros [? ?].
Qed.

(** C9. A filter that is not a date filter and whose value is the empty
    string accepts every row, whatever the row holds; a filter with an
    empty column name accepts every row, whatever its type. *)
Theorem empty_filter_accepts row filter :
  (dataType filter <> Some date -> value filter = EmptyString ->
   matchesFilterCondition row filter = true) /\
  (column filter = EmptyString -> matchesFilterCondition row filter = true).
Proof.
  unfold Analytics.matchesFilterCondition. split.
  - intros Ht ->. destruct (nonempty (column filter)); [|done]. simpl.
    by destruct (dataType filter) as [[]|].
  - by intros ->.
Qed.

Lemma every_spec row (filters : list DashboardFilter) :
  every row filters = true <->
  forall filter, filter ∈ filters -> matchesFilterCondition row filter = true.
Proof.
  unfold Analytics.every. rewrite forallb_forall.
  by setoid_rewrite list_elem_of_In.
Qed.

Lemma List_filter_all {A} (p : A -> bool) (l : list A) :
  (forall x, p x = true) -> List.filter p l = l.
Proof.
  intros Hp. induction l as [|x l IH]; simpl; [done|]. by rewrite Hp, IH.
Qed.

(** C5. Filtering with an empty filter list returns the rows that no
    filtering returns, and in every case the rows kept are, in their
    order, the rows that satisfy every filter. *)
Theorem filters_and_semantics (rows : list RawRow) (filters : list DashboardFilter) :
  filteredData rows [] = rows /\
  applyWidgetFilters rows (Some []) = applyWidgetFilters rows None /\
  applyWidgetFilters rows None = rows /\
  filteredData rows filters = List.filter (fun row => every row filters) rows /\
  applyWidgetFilters rows (Some filters) = filteredData rows filters /\
  (forall row, row ∈ filteredData rows filters <->
     row ∈ rows /\
     forall filter, filter ∈ filters -> matchesFilterCondition row filter = true).
Proof.
  assert (Hf : filteredData rows filters
               = List.filter (fun row => every row filters) rows).
  { unfold Analytics.filteredData. destruct filters; [|done].
    simpl. by rewrite List_filter_all. }
  split_and!; try done.
  intros row. by rewrite Hf, elem_of_List_filter, every_spec.
Qed.

End FilterFacts.

(* ===================================================================== *)
(** ** Facts about getUniqueValues *)
(* ===================================================================== *)

Section UniqueFacts.
Import JS Analytics.
Variable Date_toString : option Z -> string.

Local Abbreviation String_ := (Analytics.String_ Date_toString).
Local Abbreviation getUniqueValues := (Analytics.getUniqueValues Date_toString).

(** The string collected for a row: [String(row[col] || '')]. *)
Local Abbreviation collected col :=
  (fun row : RawRow => String_ (or_ (get row col) (VStr ""))).

(** The candidates of the dropdown before the cut at 100 entries. *)
Local Abbreviation candidates rows col :=
  (sort default_compare (List.filter nonempty (Set_from (List.map (collected col) rows)))).

Lemma candidates_elem_of (rows : list RawRow) (col s : string) :
  s ∈ candidates rows col <->
  s <> EmptyString /\ exists row, row ∈ rows /\ s = collected col row.
Proof.
  rewrite sort_elem_of, elem_of_List_filter, Set_from_elem_of, nonempty_true.
  rewrite list_elem_of_In, in_map_iff.
  setoid_rewrite list_elem_of_In. naive_solver.
Qed.

Lemma candidates_sorted (rows : list RawRow) (col : string) :
  StronglySorted (fun x y => String.ltb x y = true) (candidates rows col).
Proof.
  apply Sorted_strict.
  - apply sort_sorted, default_compare_consistent.
  - rewrite sort_perm. apply List_filter_NoDup, Set_from_NoDup.
Qed.

Lemma StronglySorted_ltb_NoDup (l : list string) :
  StronglySorted (fun x y => String.ltb x y = true) l -> NoDup l.
Proof.
  induction 1 as [|x l _ IH Hx]; constructor; [|done].
  intros Hin. rewrite Forall_forall in Hx. specialize (Hx x Hin).
  by rewrite string_ltb_irrefl in Hx.
Qed.

Lemma collected_nonempty (v : val) :
  String_ (or_ v (VStr "")) <> EmptyString ->
  truthy v = true /\ String_ (or_ v (VStr "")) = String_ v.
Proof.
  unfold or_. by destruct (truthy v).
Qed.

Lemma collected_blank (v : val) :
  blank v = true -> String_ (or_ v (VStr "")) = EmptyString.
Proof. by destruct v as [| | | |[|]|]. Qed.

Lemma collected_truthy (v : val) :
  truthy v = true -> String_ (or_ v (VStr "")) = String_ v.
Proof. unfold or_. by intros ->. Qed.

(** C6, as the code has it. The list returned by getUniqueValues holds the
    first 100 entries of the list of the distinct non-empty string forms of
    the truthy values of the column (a value that is undefined, null,
    false, 0 or the empty string is left out), in strictly ascending
    code-unit order; so the returned list is strictly ascending, without
    duplicates, and has at most 100 entries. *)
Theorem getUniqueValues_sorted_distinct (rows : list RawRow) (col : string) :
  (exists all,
     getUniqueValues rows col = take 100 all /\
     StronglySorted (fun x y => String.ltb x y = true) all /\
     (forall s, s ∈ all <->
        s <> EmptyString /\
        exists row, row ∈ rows /\ truthy (get row col) = true /\
                    s = String_ (get row col))) /\
  StronglySorted (fun x y => String.ltb x y = true) (getUniqueValues rows col) /\
  NoDup (getUniqueValues rows col) /\
  (length (getUniqueValues rows col) <= 100)%nat.
Proof.
  pose proof (candidates_sorted rows col) as Hsorted.
  assert (Hs : StronglySorted (fun x y => String.ltb x y = true)
                 (take 100 (candidates rows col))).
  { rewrite <- (take_drop 100 (candidates rows col)) in Hsorted.
    by apply StronglySorted_app_1_l in Hsorted. }
  unfold Analytics.getUniqueValues. split_and!.
  - exists (candidates rows col). split_and!; [done | done |].
    intros s. rewrite candidates_elem_of. split.
    + intros (Hne & row & Hrow & ->). split; [done|].
      exists row. split; [done|]. by apply collected_nonempty.
    + intros (Hne & row & Hrow & Htruthy & ->). split; [done|].
      exists row. split; [done|]. by rewrite collected_truthy.
  - done.
  - by apply StronglySorted_ltb_NoDup.
  - rewrite length_take. lia.
Qed.

Lemma collected_filter_blank (rows : list RawRow) (col : string) :
  List.filter nonempty (List.map (collected col) rows)
  = List.filter nonempty
      (List.map (collected col)
         (List.filter (fun row => negb (blank (get row col))) rows)).
Proof.
  induction rows as [|row rows IH]; simpl; [done|].
  destruct (blank (get row col)) eqn:Hb; simpl.
  - by rewrite (collected_blank _ Hb).
  - by rewrite IH.
Qed.

(** C10. The list returned by getUniqueValues never contains the empty
    string, and the rows whose value for the column is missing, null or the
    empty string contribute nothing: the list is the one computed from the
    other rows alone. *)
Theorem getUniqueValues_no_empty (rows : list RawRow) (col : string) :
  EmptyString ∉ getUniqueValues rows col /\
  getUniqueValues rows col
  = getUniqueValues (List.filter (fun row => negb (blank (get row col))) rows) col.
Proof.
  split.
  - intros Hin. unfold Analytics.getUniqueValues in Hin.
    assert (Hc : EmptyString ∈ candidates rows col).
    { rewrite <- (take_drop 100 (candidates rows col)). set_solver. }
    by apply candidates_elem_of in Hc as [? _].
  - unfold Analytics.getUniqueValues, Set_from.
    rewrite !filter_foldl_Set_add. simpl.
    by rewrite <- collected_filter_blank.
Qed.

End UniqueFacts.

(* ===================================================================== *)
(** ** The filters on the sample host *)
(* ===================================================================== *)

Example sample_parse :
  SampleHost.Date_parse "2024-01-15" = Some 1705276800000 /\
  SampleHost.Date_parse "1970-01-02" = Some 86400000 /\
  SampleHost.Date_parse "2023-02-29" = None /\
  SampleHost.Date_parse "hello" = None /\
  SampleHost.toLowerCase "FaceBook" = "facebook"%string.
Proof. repeat split; reflexivity. Qed.

Example matches_samples :
  SampleHost.matchesFilterCondition (SampleHost.post "facebook" "2024-01-20")
    SampleHost.january = true /\
  SampleHost.matchesFilterCondition (SampleHost.post "facebook" "2024-01-31")
    SampleHost.january = true /\
  SampleHost.matchesFilterCondition (SampleHost.post "facebook" "2024-02-01")
    SampleHost.january = false /\
  SampleHost.matchesFilterCondition (SampleHost.post "facebook" "2024-01-14")
    SampleHost.january = false /\
  SampleHost.matchesFilterCondition (SampleHost.post "facebook" "soon")
    SampleHost.january = false /\
  SampleHost.matchesFilterCondition (SampleHost.post "FACEBOOK" "2024-01-20")
    SampleHost.facebook = true /\
  SampleHost.matchesFilterCondition (SampleHost.post "twitter" "2024-01-20")
    SampleHost.facebook = false.
Proof. repeat split; vm_compute; reflexivity. Qed.

(** The bounds of the sample filter: 15 January 00:00:00.000 and
    31 January 23:59:59.999, local time. *)
Example january_bounds :
  Analytics.normalizeRangeStart SampleHost.Date_parse SampleHost.Date_toString
    SampleHost.LocalTZA (Some (Analytics.value SampleHost.january))
  = Some (1705276800000 - 7 * 3600000) /\
  Analytics.normalizeRangeEnd SampleHost.Date_parse SampleHost.Date_toString
    SampleHost.LocalTZA (Analytics.endValue SampleHost.january)
  = Some (1706659200000 + 86399999 - 7 * 3600000).
Proof. split; vm_compute; reflexivity. Qed.

(** Before the change of the zone's offset the bound follows the old
    offset: the start of 1 January 1900. *)
Example bounds_before_zone_change :
  SampleHost.Date_parse "1900-01-01" = Some (-2208988800000) /\
  Analytics.normalizeRangeStart SampleHost.Date_parse SampleHost.Date_toString
    SampleHost.LocalTZA (Some "1900-01-01"%string)
  = Some (-2209012924000).
Proof. split; vm_compute; reflexivity. Qed.

(** The local day of a bound is the local day of the instant that its text
    parses to, which need not be the day that the text names: five hours
    behind UTC, the instant of the date-only text 2024-01-15 falls on the
    evening of 14 January, and the bounds of the sample filter are
    14 January 00:00:00.000 and 30 January 23:59:59.999, local time: a row
    dated 14 January, noon, passes and one dated 31 January, noon, does
    not. *)
Example january_bounds_west :
  Analytics.normalizeRangeStart SampleHost.Date_parse SampleHost.Date_toString
    SampleHost.LocalTZA_west (Some (Analytics.value SampleHost.january))
  = Some (1705190400000 + 5 * 3600000) /\
  Analytics.normalizeRangeEnd SampleHost.Date_parse SampleHost.Date_toString
    SampleHost.LocalTZA_west (Analytics.endValue SampleHost.january)
  = Some (1706572800000 + 86399999 + 5 * 3600000) /\
  Analytics.matchesFilterCondition SampleHost.Date_parse SampleHost.Date_toString
    SampleHost.toLowerCase SampleHost.LocalTZA_west
    (SampleHost.row [("day"%string, JS.VDate (Some (1705190400000 + 17 * 3600000)))])
    SampleHost.january = true /\
  Analytics.matchesFilterCondition SampleHost.Date_parse SampleHost.Date_toString
    SampleHost.toLowerCase SampleHost.LocalTZA_west
    (SampleHost.row [("day"%string, JS.VDate (Some (1706659200000 + 17 * 3600000)))])
    SampleHost.january = false.
Proof. repeat split; vm_compute; reflexivity. Qed.

(** A local time that the zone skips: midnight of 1 April 1920. *)
Example skipped_midnight :
  ~ JS.local_exists SampleHost.LocalTZA (JS.MakeDate (-18172) (JS.MakeTime 0 0 0 0)) /\
  JS.getMinutes SampleHost.LocalTZA
    (JS.setHours SampleHost.LocalTZA (-1570060000000) 0 0 0 0) = 17.
Proof. split; vm_compute; [intros H; discriminate H | reflexivity]. Qed.



(** C4 fails as stated: a categorical filter that names no column accepts
    a row although no string form of the value it reads from the row equals
    the filter value; and a row whose value is null is rejected by a filter
    whose value is the string form of null. *)
Lemma categorical_filter_counterexample :
  (Analytics.dataType SampleHost.facebook_no_column = Some Analytics.text /\
   Analytics.value SampleHost.facebook_no_column <> EmptyString /\
   SampleHost.matchesFilterCondition (SampleHost.post "twitter" "2024-01-20")
     SampleHost.facebook_no_column = true /\
   SampleHost.toLowerCase
     (Analytics.String_ SampleHost.Date_toString
        (JS.get (SampleHost.post "twitter" "2024-01-20")
                (Analytics.column SampleHost.facebook_no_column)))
   <> SampleHost.toLowerCase (Analytics.value SampleHost.facebook_no_column) /\
   SampleHost.toLowerCase
     (Analytics.String_ SampleHost.Date_toString
        (JS.nullish (JS.get (SampleHost.post "twitter" "2024-01-20")
                            (Analytics.column SampleHost.facebook_no_column))
                    (JS.VStr "")))
   <> SampleHost.toLowerCase (Analytics.value SampleHost.facebook_no_column)) /\
  (Analytics.dataType SampleHost.null_channel = Some Analytics.text /\
   Analytics.value SampleHost.null_channel <> EmptyString /\
   SampleHost.matchesFilterCondition SampleHost.unknown_channel
     SampleHost.null_channel = false /\
   SampleHost.toLowerCase
     (Analytics.String_ SampleHost.Date_toString
        (JS.get SampleHost.unknown_channel
                (Analytics.column SampleHost.null_channel)))
   = SampleHost.toLowerCase (Analytics.value SampleHost.null_channel)).
Proof. repeat split; vm_compute; discriminate || reflexivity. Qed.

Lemma categorical_filter_witness :
  Analytics.column SampleHost.facebook <> EmptyString /\
  Analytics.dataType SampleHost.facebook <> Some Analytics.date /\
  Analytics.value SampleHost.facebook <> EmptyString /\
  (SampleHost.matchesFilterCondition (SampleHost.post "FACEBOOK" "2024-01-20")
     SampleHost.facebook = true <->
   SampleHost.toLowerCase
     (Analytics.String_ SampleHost.Date_toString
        (JS.nullish (JS.get (SampleHost.post "FACEBOOK" "2024-01-20")
                            (Analytics.column SampleHost.facebook))
                    (JS.VStr "")))
   = SampleHost.toLowerCase (Analytics.value SampleHost.facebook)).
Proof.
  assert (Hc : Analytics.column SampleHost.facebook <> EmptyString) by discriminate.
  assert (Ht : Analytics.dataType SampleHost.facebook <> Some Analytics.date)
    by discriminate.
  assert (Hv : Analytics.value SampleHost.facebook <> EmptyString) by discriminate.
  split; [exact Hc|]. split; [exact Ht|]. split; [exact Hv|].
  exact (categorical_filter SampleHost.Date_parse SampleHost.Date_toString
           SampleHost.toLowerCase SampleHost.LocalTZA
           (SampleHost.post "FACEBOOK" "2024-01-20") SampleHost.facebook Hc Ht Hv).
Defined.

(** C8 fails as stated: a date filter with no bounds that names no column
    accepts a row although the value it reads from the row does not parse
    as a date. *)
Lemma date_filter_without_bounds_counterexample :
  Analytics.dataType SampleHost.any_date_no_column = Some Analytics.date /\
  Analytics.value SampleHost.any_date_no_column = EmptyString /\
  Analytics.endValue SampleHost.any_date_no_column = None /\
  SampleHost.toDateValue
    (JS.get (SampleHost.post "facebook" "soon")
            (Analytics.column SampleHost.any_date_no_column)) = None /\
  SampleHost.matchesFilterCondition (SampleHost.post "facebook" "soon")
    SampleHost.any_date_no_column = true.
Proof. repeat split; vm_compute; reflexivity. Qed.

Lemma date_filter_without_bounds_witness :
  Analytics.column SampleHost.any_date <> EmptyString /\
  Analytics.dataType SampleHost.any_date = Some Analytics.date /\
  SampleHost.toDateValue
    (JS.get (SampleHost.post "facebook" "soon")
            (Analytics.column SampleHost.any_date)) = None /\
  SampleHost.matchesFilterCondition (SampleHost.post "facebook" "soon")
    SampleHost.any_date = false.
Proof.
  assert (Hc : Analytics.column SampleHost.any_date <> EmptyString) by discriminate.
  assert (Ht : Analytics.dataType SampleHost.any_date = Some Analytics.date)
    by reflexivity.
  assert (Hd : SampleHost.toDateValue
                 (JS.get (SampleHost.post "facebook" "soon")
                         (Analytics.column SampleHost.any_date)) = None)
    by (vm_compute; reflexivity).
  split; [exact Hc|]. split; [exact Ht|]. split; [exact Hd|].
  exact (proj1 (date_filter_without_bounds SampleHost.Date_parse
                  SampleHost.Date_toString SampleHost.toLowerCase SampleHost.LocalTZA
                  (SampleHost.post "facebook" "soon") SampleHost.any_date Hc Ht) Hd).
Defined.

Example any_date_accepts_dates :
  SampleHost.matchesFilterCondition (SampleHost.post "facebook" "1999-12-31")
    SampleHost.any_date = true.
Proof. vm_compute. reflexivity. Qed.

Lemma empty_filter_accepts_witness :
  Analytics.dataType SampleHost.any_channel <> Some Analytics.date /\
  Analytics.value SampleHost.any_channel = EmptyString /\
  SampleHost.matchesFilterCondition (SampleHost.post "twitter" "soon")
    SampleHost.any_channel = true /\
  Analytics.column SampleHost.january_no_column = EmptyString /\
  SampleHost.matchesFilterCondition (SampleHost.post "twitter" "soon")
    SampleHost.january_no_column = true.
Proof.
  assert (Ht : Analytics.dataType SampleHost.any_channel <> Some Analytics.date)
    by discriminate.
  assert (Hv : Analytics.value SampleHost.any_channel = EmptyString) by reflexivity.
  assert (Hc : Analytics.column SampleHost.january_no_column = EmptyString)
    by reflexivity.
  split; [exact Ht|]. split; [exact Hv|]. split.
  - exact (proj1 (empty_filter_accepts SampleHost.Date_parse SampleHost.Date_toString
                    SampleHost.toLowerCase SampleHost.LocalTZA
                    (SampleHost.post "twitter" "soon") SampleHost.any_channel) Ht Hv).
  - split; [exact Hc|].
    exact (proj2 (empty_filter_accepts SampleHost.Date_parse SampleHost.Date_toString
                    SampleHost.toLowerCase SampleHost.LocalTZA
                    (SampleHost.post "twitter" "soon") SampleHost.january_no_column) Hc).
Defined.

(** C6 fails as stated: the values 0 and false of a column have the string
    forms 0 and false, and neither is in the list, which is far from full. *)
Lemma getUniqueValues_sorted_distinct_counterexample :
  SampleHost.zero_row ∈ SampleHost.falsy_rows /\
  Analytics.String_ SampleHost.Date_toString (JS.get SampleHost.zero_row "n")
  = "0"%string /\
  ("0"%string ∉ SampleHost.getUniqueValues SampleHost.falsy_rows "n") /\
  SampleHost.false_row ∈ SampleHost.falsy_rows /\
  Analytics.String_ SampleHost.Date_toString (JS.get SampleHost.false_row "n")
  = "false"%string /\
  ("false"%string ∉ SampleHost.getUniqueValues SampleHost.falsy_rows "n") /\
  SampleHost.getUniqueValues SampleHost.falsy_rows "n" = ["7"]%string.
Proof.
  assert (H : SampleHost.getUniqueValues SampleHost.falsy_rows "n" = ["7"]%string)
    by (vm_compute; reflexivity).
  rewrite H. unfold SampleHost.falsy_rows.
  split_and!; try (vm_compute; reflexivity); try set_solver.
Qed.

Example getUniqueValues_sample :
  SampleHost.getUniqueValues
    [SampleHost.post "tw" "d"; SampleHost.post "fb" "d"; SampleHost.post "" "d";
     SampleHost.row [("day"%string, JS.VStr "d")];
     SampleHost.row [("channel"%string, JS.VNull)];
     SampleHost.row [("channel"%string, JS.VNum 42)];
     SampleHost.row [("channel"%string, JS.VNum 0)];
     SampleHost.post "tw" "e"; SampleHost.post "Tw" "e"]
    "channel"
  = ["42"; "Tw"; "fb"; "tw"]%string.
Proof. vm_compute. reflexivity. Qed.

(** With 150 distinct values in the column the list stops at 100 entries. *)
Example getUniqueValues_cap :
  length (SampleHost.getUniqueValues
            (List.map (fun i => SampleHost.row [("n"%string, JS.VNum (Z.of_nat i))])
                      (seq 1 150)) "n") = 100%nat.
Proof. vm_compute. reflexivity. Qed.

(* ===================================================================== *)
(** ** How filters compose *)
(* ===================================================================== *)

Set Default Proof Using "Type".

Lemma StronglySorted_ltb_unique (l1 l2 : list string) :
  StronglySorted (fun x y => String.ltb x y = true) l1 ->
  StronglySorted (fun x y => String.ltb x y = true) l2 ->
  (forall x, x ∈ l1 <-> x ∈ l2) -> l1 = l2.
Proof.
  intros H1 H2 Hel.
  assert (Hirr : forall x y, String.ltb x y = true -> String.ltb y x = true -> False).
  { intros x y Hxy Hyx. pose proof (string_ltb_trans _ _ _ Hxy Hyx) as H.
    by rewrite string_ltb_irrefl in H. }
  revert l2 H2 Hel. induction H1 as [|x l1 Hs1 IH Hx]; intros l2 H2 Hel.
  - destruct l2 as [|y l2]; [done|]. specialize (Hel y). set_solver.
  - destruct H2 as [|y l2 Hs2 Hy].
    { specialize (Hel x). set_solver. }
    rewrite Forall_forall in Hx, Hy.
    assert (x = y) as <-.
    { assert (Hxin : x ∈ y :: l2) by (apply Hel; left).
      assert (Hyin : y ∈ x :: l1) by (apply Hel; left).
      apply elem_of_cons in Hxin as [?|Hxin]; [done|].
      apply elem_of_cons in Hyin as [?|Hyin]; [done|].
      exfalso. eauto. }
    f_equal. apply IH; [done|]. intros z. split; intros Hz.
    + assert (Hzin : z ∈ x :: l2) by (apply Hel; by right).
      apply elem_of_cons in Hzin as [->|?]; [|done].
      exfalso. specialize (Hx _ Hz). by rewrite string_ltb_irrefl in Hx.
    + assert (Hzin : z ∈ x :: l1) by (apply Hel; by right).
      apply elem_of_cons in Hzin as [->|?]; [|done].
      exfalso. specialize (Hy _ Hz). by rewrite string_ltb_irrefl in Hy.
Qed.

Section FilterComposition.
Import JS Analytics.
Variable Date_parse : string -> option Z.
Variable Date_toString : option Z -> string.
Variable toLowerCase : string -> string.
Variable LocalTZA : Z -> bool -> Z.

Local Abbreviation matchesFilterCondition :=
  (Analytics.matchesFilterCondition Date_parse Date_toString toLowerCase LocalTZA).
Local Abbreviation every :=
  (Analytics.every Date_parse Date_toString toLowerCase LocalTZA).
Local Abbreviation filteredData :=
  (Analytics.filteredData Date_parse Date_toString toLowerCase LocalTZA).
Local Abbreviation applyWidgetFilters :=
  (Analytics.applyWidgetFilters Date_parse Date_toString toLowerCase LocalTZA).
Local Abbreviation getUniqueValues := (Analytics.getUniqueValues Date_toString).
Local Abbreviation String_ := (Analytics.String_ Date_toString).

Lemma filteredData_filter (rows : list RawRow) (fs : list DashboardFilter) :
  filteredData rows fs = List.filter (fun row => every row fs) rows.
Proof.
  unfold Analytics.filteredData. destruct fs; [|done].
  simpl. by rewrite List_filter_all.
Qed.

Lemma List_filter_filter {A} (p q : A -> bool) (l : list A) :
  List.filter q (List.filter p l) = List.filter (fun x => p x && q x) l.
Proof.
  induction l as [|x l IH]; simpl; [done|].
  destruct (p x) eqn:Hp; simpl; [|done].
  destruct (q x); by rewrite IH.
Qed.

Lemma List_filter_ext_in {A} (p q : A -> bool) (l : list A) :
  (forall x, x ∈ l -> p x = q x) -> List.filter p l = List.filter q l.
Proof.
  intros H. apply List.filter_ext_in. intros x Hx. apply H.
  by apply list_elem_of_In.
Qed.

Lemma every_app (row : RawRow) (fs gs : list DashboardFilter) :
  every row (fs ++ gs) = every row fs && every row gs.
Proof. unfold Analytics.every. apply forallb_app. Qed.

Lemma filteredData_app (rows : list RawRow) (fs gs : list DashboardFilter) :
  filteredData rows (fs ++ gs) = filteredData (filteredData rows fs) gs.
Proof.
  rewrite !filteredData_filter, List_filter_filter.
  apply List_filter_ext_in. intros row _. apply every_app.
Qed.

(** X1. Filters compose: filtering with the filters [fs] followed by [gs]
    returns what filtering the result for [fs] with [gs] returns, and
    filtering a result again with its own filters changes nothing. *)
Theorem filteredData_compose (rows : list RawRow) (fs gs : list DashboardFilter) :
  filteredData rows (fs ++ gs) = filteredData (filteredData rows fs) gs /\
  filteredData (filteredData rows fs) fs = filteredData rows fs /\
  applyWidgetFilters (filteredData rows fs) (Some gs) = filteredData rows (fs ++ gs).
Proof.
  pose proof (filteredData_app rows fs gs) as H1.
  split_and!; [done| |].
  - rewrite !filteredData_filter, List_filter_filter.
    apply List_filter_ext_in. intros row _. by destruct (every row fs).
  - rewrite H1. reflexivity.
Qed.

(** X2. The order of the filters does not matter: two filter lists that
    are permutations of each other keep the same rows. *)
Theorem filteredData_filter_order (rows : list RawRow) (fs gs : list DashboardFilter) :
  fs ≡ₚ gs -> filteredData rows fs = filteredData rows gs.
Proof.
  intros Hp. rewrite !filteredData_filter.
  apply List_filter_ext_in. intros row _.
  apply eq_true_iff_eq. rewrite !every_spec.
  by setoid_rewrite Hp.
Qed.

(** X3. Every entry that getUniqueValues offers for a column selects at
    least one row when it is used as the value of a categorical filter on
    that column. *)
Theorem getUniqueValues_entries_match (rows : list RawRow) (filter : DashboardFilter) :
  column filter <> EmptyString -> dataType filter <> Some date ->
  value filter ∈ getUniqueValues rows (column filter) ->
  exists row, row ∈ rows /\ matchesFilterCondition row filter = true /\
              row ∈ filteredData rows [filter].
Proof.
  intros Hc Ht Hin.
  unfold Analytics.getUniqueValues in Hin.
  apply elem_of_take in Hin as (i & Hin & _).
  apply list_elem_of_lookup_2 in Hin.
  rewrite sort_elem_of, elem_of_List_filter, Set_from_elem_of in Hin.
  destruct Hin as [Hin Hne]. pose proof Hne as Hv. rewrite nonempty_true in Hv.
  rewrite list_elem_of_In, in_map_iff in Hin.
  destruct Hin as (row & Hs & Hrow%list_elem_of_In).
  assert (Hm : matchesFilterCondition row filter = true).
  { rewrite (matches_text Date_parse Date_toString toLowerCase LocalTZA) by done.
    apply String.eqb_eq. f_equal. rewrite <- Hs.
    unfold or_ in *. destruct (truthy (get row (column filter))) eqn:Htr.
    - by destruct (get row (column filter)).
    - by rewrite <- Hs in Hv. }
  exists row. split_and!; [done | done |].
  rewrite filteredData_filter, elem_of_List_filter. split; [done|].
  unfold Analytics.every. simpl. by rewrite Hm.
Qed.

Lemma sorted_set_unique (l1 l2 : list string) :
  (forall x, x ∈ l1 <-> x ∈ l2) ->
  sort default_compare (List.filter nonempty (Set_from l1))
  = sort default_compare (List.filter nonempty (Set_from l2)).
Proof.
  intros Hel. apply StronglySorted_ltb_unique.
  - apply Sorted_strict; [apply sort_sorted, default_compare_consistent|].
    rewrite sort_perm. apply List_filter_NoDup, Set_from_NoDup.
  - apply Sorted_strict; [apply sort_sorted, default_compare_consistent|].
    rewrite sort_perm. apply List_filter_NoDup, Set_from_NoDup.
  - intros x. rewrite !sort_elem_of, !elem_of_List_filter, !Set_from_elem_of.
    by rewrite Hel.
Qed.

(** X4. The list of unique values does not depend on the order of the
    rows nor on how often a row occurs: row lists with the same rows give
    the same list. *)
Theorem getUniqueValues_row_order (rows rows' : list RawRow) (col : string) :
  (forall row, row ∈ rows <-> row ∈ rows') ->
  getUniqueValues rows col = getUniqueValues rows' col.
Proof.
  intros Hel. unfold Analytics.getUniqueValues. f_equal.
  apply sorted_set_unique. intros x.
  rewrite !list_elem_of_In, !in_map_iff.
  setoid_rewrite <- list_elem_of_In. by setoid_rewrite Hel.
Qed.

End FilterComposition.

(* ===================================================================== *)
(** ** Facts about inferColumnType *)
(* ===================================================================== *)

Section ColumnTypeFacts.
Import JS Analytics Panel.
Variable Date_parse : string -> option Z.
Variable Number_isNaN : string -> bool.

Local Abbreviation inferColumnType := (Panel.inferColumnType Date_parse Number_isNaN).
Local Abbreviation dateLike := (Panel.dateLike Date_parse).
Local Abbreviation numberLike := (Panel.numberLike Number_isNaN).

(** The non-blank values of a column, in row order. *)
Local Abbreviation values col rows :=
  (List.filter present (List.map (fun row : RawRow => get row col) rows)).

Lemma collect_samples_spec (col : string) (rows : list RawRow) (samples : list val) :
  (length samples <= SAMPLE_SIZE)%nat ->
  collect_samples col rows samples
  = take SAMPLE_SIZE (samples ++ values col rows).
Proof.
  revert samples. induction rows as [|row rows IH]; intros samples Hlen; simpl.
  - rewrite app_nil_r. by rewrite take_ge.
  - destruct (Nat.ltb_spec (length samples) SAMPLE_SIZE) as [Hlt|Hge].
    + destruct (present (get row col)) eqn:Hp.
      * rewrite IH by (rewrite length_app; simpl; lia).
        by rewrite <- app_assoc.
      * by rewrite IH.
    + rewrite take_app_le by done. by rewrite take_ge.
Qed.

Lemma samples_spec (col : string) (rows : list RawRow) :
  collect_samples col rows [] = take SAMPLE_SIZE (values col rows).
Proof. rewrite collect_samples_spec; [done | simpl; unfold SAMPLE_SIZE; lia]. Qed.

(** X5. A column none of whose values is present (each is missing, null or
    the empty string) is a text column; so is any column of an empty row
    list. *)
Theorem inferColumnType_blank_column (col : string) (rows : list RawRow) :
  (forall row, row ∈ rows -> blank (get row col) = true) ->
  inferColumnType col rows = text.
Proof.
  intros Hb. unfold Panel.inferColumnType. rewrite samples_spec.
  assert (values col rows = []) as ->; [|done].
  induction rows as [|row rows IH]; [done|]. simpl.
  unfold present at 1. rewrite Hb by left. simpl.
  apply IH. intros r Hr. apply Hb. by right.
Qed.

(** X6. Only the first fifty present values of the column decide its
    type: once the rows hold fifty of them, further rows change nothing. *)
Theorem inferColumnType_sample_window (col : string) (rows more : list RawRow) :
  (SAMPLE_SIZE <= length (values col rows))%nat ->
  inferColumnType col (rows ++ more) = inferColumnType col rows.
Proof.
  intros Hlen. unfold Panel.inferColumnType. rewrite !samples_spec.
  rewrite List.map_app, List.filter_app. by rewrite take_app_le.
Qed.

Lemma filter_all_length {A} (p : A -> bool) (l : list A) :
  Forall (fun x => p x = true) l -> length (List.filter p l) = length l.
Proof. induction 1 as [|x l Hx _ IH]; simpl; [done|]. rewrite Hx. simpl. lia. Qed.

Lemma filter_none_length {A} (p : A -> bool) (l : list A) :
  Forall (fun x => p x = false) l -> length (List.filter p l) = 0%nat.
Proof. induction 1 as [|x l Hx _ IH]; simpl; [done|]. by rewrite Hx. Qed.

(** X7. A column whose present values are all numbers, with at least one
    of them, is a number column, whatever the host's date parser accepts. *)
Theorem inferColumnType_numbers (col : string) (rows : list RawRow) :
  values col rows <> [] ->
  Forall (fun v => exists n, v = VNum n) (values col rows) ->
  inferColumnType col rows = number.
Proof.
  intros Hne Hnum. unfold Panel.inferColumnType. rewrite samples_spec.
  set (samples := take SAMPLE_SIZE (values col rows)).
  assert (Hs : Forall (fun v => exists n, v = VNum n) samples)
    by (by apply Forall_take).
  assert (Hlen : length samples <> 0%nat).
  { unfold samples. rewrite length_take. unfold SAMPLE_SIZE.
    destruct (values col rows); simpl in *; [done | lia]. }
  rewrite (filter_none_length dateLike), (filter_all_length numberLike).
  - destruct (Nat.eqb_spec (length samples) 0); [done|].
    unfold reaches_share.
    destruct (Nat.leb_spec (3 * length samples) (5 * 0)); [lia|].
    destruct (Nat.leb_spec (3 * length samples) (5 * length samples)); [done | lia].
  - eapply Forall_impl; [exact Hs|]. by intros v [n ->].
  - eapply Forall_impl; [exact Hs|]. by intros v [n ->].
Qed.

End ColumnTypeFacts.

(* ===================================================================== *)
(** ** Facts about the filter panel and the widget list *)
(* ===================================================================== *)

Section FilterLists.
Import JS Analytics Panel.

Lemma set_field_column (f : DashboardFilter) (field : FilterField) (val : string) :
  column (set_field f field val) = column f.
Proof. by destruct field. Qed.

Lemma set_field_id (f : DashboardFilter) (field : FilterField) (val : string) :
  id (set_field f field val) = id f.
Proof. by destruct field. Qed.

Lemma updateFilterValue_columns (p : FilterPanel) (fid val : string) (field : FilterField) :
  column <$> filters (updateFilterValue p fid val field) = column <$> filters p.
Proof.
  simpl. induction (filters p) as [|f fs IH]; [done|]. csimpl. rewrite IH. f_equal.
  destruct (String.eqb (id f) fid); [apply set_field_column | done].
Qed.

Lemma find_column_None (fs : list DashboardFilter) (col : string) :
  List.find (fun f => String.eqb (column f) col) fs = None <->
  col ∉ column <$> fs.
Proof.
  induction fs as [|f fs IH]; csimpl; [set_solver|].
  destruct (String.eqb_spec (column f) col) as [<-|Hne].
  - split; [done|]. intros H. exfalso. apply H. left.
  - rewrite IH. set_solver.
Qed.

Lemma NoDup_fmap_filter {A B} (g : A -> B) (p : A -> bool) (l : list A) :
  NoDup (g <$> l) -> NoDup (g <$> List.filter p l).
Proof.
  induction l as [|x l IH]; csimpl; [done|].
  intros [Hx Hl]%NoDup_cons. destruct (p x); csimpl; [|by apply IH].
  apply NoDup_cons. split; [|by apply IH].
  intros (y & Hy & [Hin _]%elem_of_List_filter)%list_elem_of_fmap.
  apply Hx. apply list_elem_of_fmap. eauto.
Qed.

Lemma filter_id_fresh (fs : list DashboardFilter) (fid : string) :
  fid ∉ id <$> fs ->
  List.filter (fun f => negb (String.eqb (id f) fid)) fs = fs.
Proof.
  induction fs as [|f fs IH]; csimpl; [done|]. intros Hnot.
  destruct (String.eqb_spec (id f) fid) as [Heq|Hne]; simpl.
  - exfalso. apply Hnot. rewrite Heq. left.
  - rewrite IH; [done|]. set_solver.
Qed.

End FilterLists.

Section PanelFacts.
Import JS Analytics Panel.
Variable Date_parse : string -> option Z.
Variable Date_toString : option Z -> string.
Variable toISOString : Z -> string.
Variable getColumnType : string -> FilterDataType.

Local Abbreviation addFilter :=
  (Panel.addFilter Date_parse Date_toString toISOString getColumnType).
Local Abbreviation run :=
  (Panel.run Date_parse Date_toString toISOString getColumnType).
Local Abbreviation reachable :=
  (Panel.reachable Date_parse Date_toString toISOString getColumnType).
Local Abbreviation toDateValue := (Analytics.toDateValue Date_parse Date_toString).
Local Abbreviation String_ := (Analytics.String_ Date_toString).

(** Every filter names a column, and no two filters name the same one. *)
Local Abbreviation columns_ok fs :=
  (Forall (fun f => column f <> EmptyString) fs%list /\ NoDup (column <$> fs%list)).

Lemma columns_ok_same (fs gs : list DashboardFilter) :
  column <$> gs = column <$> fs -> columns_ok fs -> columns_ok gs.
Proof.
  intros Heq [Hne Hnd]. split; [|by rewrite Heq].
  rewrite Forall_forall in Hne. apply Forall_forall. intros g Hg.
  assert (Hin : column g ∈ column <$> fs).
  { rewrite <- Heq. apply list_elem_of_fmap. eauto. }
  apply list_elem_of_fmap in Hin as (f & -> & Hf). by apply Hne.
Qed.

Lemma run_columns_ok (p : FilterPanel) (o : PanelOp) :
  columns_ok (filters p) -> columns_ok (filters (run p o)).
Proof.
  intros Hok. destruct o as [uuid col value|fid|fid val field|col]; simpl; [| | |done].
  - unfold Panel.addFilter.
    destruct (nonempty col) eqn:Hcol; simpl; [|done].
    destruct (List.find _ (filters p)) as [found|] eqn:Hfind.
    + destruct (nonempty value); [|done].
      eapply columns_ok_same; [apply updateFilterValue_columns | done].
    + apply find_column_None in Hfind. apply nonempty_true in Hcol.
      destruct Hok as [Hne Hnd].
      assert (Hnew : forall f, column f = col ->
                columns_ok (filters p ++ [f])).
      { intros f Hf. split.
        - apply Forall_app. split; [done|]. constructor; [by rewrite Hf | done].
        - rewrite fmap_app. apply NoDup_app. split_and!; [done | | apply NoDup_singleton].
          intros x Hx. csimpl. rewrite Hf. set_solver. }
      simpl. apply Hnew.
      destruct (getColumnType col); try done.
      destruct (nonempty value); [|done].
      by destruct (nonempty _).
  - destruct Hok as [Hne Hnd]. split.
    + apply Forall_forall. intros f [Hf _]%elem_of_List_filter.
      rewrite Forall_forall in Hne. by apply Hne.
    + by apply NoDup_fmap_filter.
  - eapply columns_ok_same; [apply updateFilterValue_columns | done].
Qed.

(** X8. Whatever is done with the filter bar (adding, removing, updating
    filters), every filter of the panel names a column and no two filters
    name the same column. *)
Theorem panel_columns (p : FilterPanel) :
  reachable p ->
  Forall (fun f => column f <> EmptyString) (filters p) /\
  NoDup (column <$> filters p).
Proof.
  induction 1 as [|p o _ IH]; [|by apply run_columns_ok].
  split; simpl; [constructor | apply NoDup_nil_2].
Qed.

Lemma addFilter_new (uuid : string) (p : FilterPanel) (col value : string) :
  col <> EmptyString -> col ∉ column <$> filters p ->
  exists f, filters (addFilter uuid p col value) = filters p ++ [f] /\
            id f = uuid /\ column f = col /\
            (getColumnType col = date -> value = EmptyString ->
             f = mkFilter uuid col "" (Some ""%string) (Some date)) /\
            (getColumnType col <> date ->
             f = mkFilter uuid col value None (Some (getColumnType col))).
Proof.
  intros Hcol%nonempty_true Hfresh%find_column_None.
  unfold Panel.addFilter. rewrite Hcol, Hfresh. simpl.
  eexists. split; [done|].
  destruct (getColumnType col); simpl; try by split_and!.
  destruct (nonempty value) eqn:Hv.
  - destruct (nonempty (normalizeDateInputValue _ _ _ value)); split_and!; try done.
    all: first [intros _ ->; done | intros H; by destruct H].
  - split_and!; try done.
    all: intros H; by destruct H.
Qed.

(** X9. Removing a filter that was just added gives back the filters
    there were before, provided the new filter got an identifier that no
    other filter has. *)
Theorem removeFilter_addFilter (uuid : string) (p : FilterPanel) (col value : string) :
  col <> EmptyString -> col ∉ column <$> filters p -> uuid ∉ id <$> filters p ->
  filters (removeFilter (addFilter uuid p col value) uuid) = filters p.
Proof.
  intros Hcol Hfresh Hid.
  destruct (addFilter_new uuid p col value Hcol Hfresh) as (f & Hf & Hfid & _).
  unfold removeFilter. simpl. rewrite Hf, List.filter_app. simpl.
  rewrite Hfid, String.eqb_refl. simpl.
  rewrite filter_id_fresh by done. apply app_nil_r.
Qed.

Section Narrowing.
Variable toLowerCase : string -> string.
Variable LocalTZA : Z -> bool -> Z.

Local Abbreviation matchesFilterCondition :=
  (Analytics.matchesFilterCondition Date_parse Date_toString toLowerCase LocalTZA).
Local Abbreviation filteredData :=
  (Analytics.filteredData Date_parse Date_toString toLowerCase LocalTZA).

Lemma filteredData_snoc (rows : list RawRow) (fs : list DashboardFilter)
  (f : DashboardFilter) :
  filteredData rows (fs ++ [f])
  = List.filter (fun row => matchesFilterCondition row f) (filteredData rows fs).
Proof.
  rewrite (filteredData_app Date_parse Date_toString toLowerCase LocalTZA).
  rewrite (filteredData_filter Date_parse Date_toString toLowerCase LocalTZA _ [f]).
  apply List_filter_ext_in. intros row _. unfold Analytics.every. simpl.
  apply andb_true_r.
Qed.

(** X10. Adding a filter without a value for a date column that has no
    filter yet narrows the current selection to the rows whose value for
    the column parses as a date. *)
Theorem addFilter_date_column (uuid : string) (p : FilterPanel) (col : string)
  (rows : list RawRow) :
  col <> EmptyString -> col ∉ column <$> filters p -> getColumnType col = date ->
  filteredData rows (filters (addFilter uuid p col ""))
  = List.filter (fun row => bool_decide (is_Some (toDateValue (get row col))))
                (filteredData rows (filters p)).
Proof.
  intros Hcol Hfresh Hdate.
  destruct (addFilter_new uuid p col "" Hcol Hfresh) as (f & -> & _ & _ & Hf & _).
  rewrite (Hf Hdate eq_refl), filteredData_snoc.
  apply List_filter_ext_in. intros row _.
  rewrite (matches_date Date_parse Date_toString toLowerCase LocalTZA) by done.
  simpl. by destruct (toDateValue (get row col)).
Qed.

(** X11. Adding a filter with a value for a column that is not a date
    column and has no filter yet narrows the current selection to the rows
    whose value for the column, as a string and with null or missing
    counting as empty, equals the given value when both are lower-cased. *)
Theorem addFilter_categorical_column (uuid : string) (p : FilterPanel)
  (col value : string) (rows : list RawRow) :
  col <> EmptyString -> col ∉ column <$> filters p ->
  getColumnType col <> date -> value <> EmptyString ->
  filteredData rows (filters (addFilter uuid p col value))
  = List.filter
      (fun row => String.eqb (toLowerCase (String_ (nullish (get row col) (VStr ""))))
                             (toLowerCase value))
      (filteredData rows (filters p)).
Proof.
  intros Hcol Hfresh Htype Hvalue.
  destruct (addFilter_new uuid p col value Hcol Hfresh) as (f & -> & _ & _ & _ & Hf).
  rewrite (Hf Htype), filteredData_snoc.
  apply List_filter_ext_in. intros row _.
  rewrite (matches_text Date_parse Date_toString toLowerCase LocalTZA); try done.
  simpl. by intros [= ?].
Qed.

End Narrowing.

End PanelFacts.

Section WidgetListFacts.
Import Panel.

(** X12. Saving a widget closes the builder. A new widget is put at the
    end of the list; an edited widget replaces the widgets that have its
    identifier, so editing keeps the identifiers of the list as they are,
    and an edit whose identifier is not in the list changes nothing. *)
Theorem handleSaveWidget_ids {Widget : Type} (widget_id : Widget -> string)
  (b : Board Widget) (newWidget : Widget) :
  isBuilderOpen (handleSaveWidget widget_id b newWidget) = false /\
  editingWidget (handleSaveWidget widget_id b newWidget) = None /\
  (editingWidget b = None ->
   widgets (handleSaveWidget widget_id b newWidget) = widgets b ++ [newWidget]) /\
  (is_Some (editingWidget b) ->
   widget_id <$> widgets (handleSaveWidget widget_id b newWidget)
   = widget_id <$> widgets b /\
   (forall w, w ∈ widgets (handleSaveWidget widget_id b newWidget) ->
      widget_id w = widget_id newWidget -> w = newWidget) /\
   (widget_id newWidget ∉ widget_id <$> widgets b ->
    widgets (handleSaveWidget widget_id b newWidget) = widgets b)).
Proof.
  unfold handleSaveWidget. simpl. split_and!; try done.
  - by intros ->.
  - intros [e ->]. split_and!.
    + induction (widgets b) as [|w ws IH]; csimpl; [done|]. rewrite IH. f_equal.
      by destruct (String.eqb_spec (widget_id w) (widget_id newWidget)).
    + intros w Hw Hid. rewrite list_elem_of_In, in_map_iff in Hw.
      destruct Hw as (w0 & Hw0 & _).
      destruct (String.eqb_spec (widget_id w0) (widget_id newWidget)); congruence.
    + induction (widgets b) as [|w ws IH]; csimpl; [done|]. intros Hnot.
      destruct (String.eqb_spec (widget_id w) (widget_id newWidget)) as [Heq|Hne].
      * exfalso. apply Hnot. rewrite Heq. left.
      * rewrite IH; [done|]. set_solver.
Qed.

End WidgetListFacts.

(* ===================================================================== *)
(** ** Facts about the chart builder's lists *)
(* ===================================================================== *)

Section BuilderFacts.
Import JS Builder.

Lemma insert_map {A B} (f : A -> B) (cmp : B -> B -> Z) (x : A) (l : list A) :
  insert cmp (f x) (List.map f l)
  = List.map f (insert (fun a b => cmp (f a) (f b)) x l).
Proof.
  induction l as [|y l IH]; simpl; [done|].
  destruct (Z.ltb 0 (cmp (f x) (f y))); simpl; [by rewrite IH | done].
Qed.

Lemma sort_map {A B} (f : A -> B) (cmp : B -> B -> Z) (l : list A) :
  sort cmp (List.map f l) = List.map f (sort (fun a b => cmp (f a) (f b)) l).
Proof.
  induction l as [|x l IH]; simpl; [done|]. by rewrite IH, insert_map.
Qed.

Lemma sort_ext {A} (cmp cmp' : A -> A -> Z) (l : list A) :
  (forall a b, cmp a b = cmp' a b) -> sort cmp l = sort cmp' l.
Proof.
  intros H. induction l as [|x l IH]; simpl; [done|]. rewrite IH.
  generalize (sort cmp' l). intros k.
  induction k as [|y k IHk]; simpl; [done|]. by rewrite H, IHk.
Qed.

(** The rows in the requested order, compared by their totals. *)
Local Abbreviation by_total lc order rows :=
  (match order with
   | ChartBuilder.value_desc => sort (fun a b => row_total b - row_total a) rows
   | ChartBuilder.value_asc => sort (fun a b => row_total a - row_total b) rows
   | ChartBuilder.name_asc =>
       sort (fun a b => lc (ChartBuilder.name a) (ChartBuilder.name b)) rows
   | ChartBuilder.name_desc =>
       sort (fun a b => lc (ChartBuilder.name b) (ChartBuilder.name a)) rows
   | ChartBuilder.original => rows%list
   end).

Lemma field_with_total (e : ChartBuilder.entry) :
  ChartBuilder.field (with_total e) "__total" = row_total e.
Proof. unfold ChartBuilder.field, with_total. simpl. by rewrite lookup_insert_eq. Qed.

Lemma without_with_total (e : ChartBuilder.entry) :
  without_total (with_total e) = without_total e.
Proof. unfold without_total, with_total. simpl. by rewrite delete_insert_eq. Qed.

Lemma sortByTotals_by_total (lc : string -> string -> Z)
  (rows : list ChartBuilder.entry) (order : ChartBuilder.SortOrder) :
  sortByTotals lc rows order = List.map without_total (by_total lc order rows).
Proof.
  unfold sortByTotals.
  assert (Hstrip : forall l, List.map without_total (List.map with_total l)
                             = List.map without_total l).
  { intros l. rewrite List.map_map. apply List.map_ext. apply without_with_total. }
  destruct order; simpl; rewrite ?sort_map, ?Hstrip; try done.
  - f_equal. apply sort_ext. intros a b. by rewrite !field_with_total.
  - f_equal. apply sort_ext. intros a b. by rewrite !field_with_total.
Qed.

Lemma by_total_perm (lc : string -> string -> Z)
  (rows : list ChartBuilder.entry) (order : ChartBuilder.SortOrder) :
  by_total lc order rows ≡ₚ rows.
Proof. destruct order; solve [apply sort_perm | done]. Qed.

Lemma without_total_id (e : ChartBuilder.entry) :
  ChartBuilder.fields e !! "__total"%string = None -> without_total e = e.
Proof.
  intros H. unfold without_total. rewrite delete_id by done. by destruct e.
Qed.

Lemma map_id_on {A} (f : A -> A) (l : list A) :
  (forall x, x ∈ l -> f x = x) -> List.map f l = l.
Proof.
  induction l as [|x l IH]; simpl; [done|]. intros H.
  rewrite H by left. rewrite IH; [done|]. intros y Hy. apply H. by right.
Qed.

(** X13. Whatever the rows hold, sortByTotals returns the rows without
    their [__total] field, in some order: no returned row has that field,
    and the result is a permutation of the rows stripped of it. *)
Theorem sortByTotals_strips_total (lc : string -> string -> Z)
  (rows : list ChartBuilder.entry) (order : ChartBuilder.SortOrder) :
  sortByTotals lc rows order ≡ₚ without_total <$> rows /\
  (forall e, e ∈ sortByTotals lc rows order ->
     ChartBuilder.fields e !! "__total"%string = None) /\
  length (sortByTotals lc rows order) = length rows.
Proof.
  rewrite sortByTotals_by_total.
  assert (Hp : List.map without_total (by_total lc order rows) ≡ₚ without_total <$> rows).
  { change (List.map without_total (by_total lc order rows))
      with (without_total <$> by_total lc order rows).
    by rewrite by_total_perm. }
  split_and!; [done | |].
  - intros e He. rewrite Hp in He.
    apply list_elem_of_fmap in He as (e0 & -> & _).
    unfold without_total. simpl. apply lookup_delete_eq.
  - by rewrite Hp, length_fmap.
Qed.

(** X14. For rows that have no [__total] field, sortByTotals returns a
    permutation of the rows: by decreasing total and by increasing total
    for the two value orders (the total of a row being the sum of its
    numeric fields), as applySorting arranges them for the two name orders,
    and unchanged for the original order. *)
Theorem sortByTotals_orders (lc : string -> string -> Z)
  (rows : list ChartBuilder.entry) (key : string) :
  (forall e, e ∈ rows -> ChartBuilder.fields e !! "__total"%string = None) ->
  (forall order, sortByTotals lc rows order ≡ₚ rows) /\
  StronglySorted (fun a b => row_total b <= row_total a)
    (sortByTotals lc rows ChartBuilder.value_desc) /\
  StronglySorted (fun a b => row_total a <= row_total b)
    (sortByTotals lc rows ChartBuilder.value_asc) /\
  sortByTotals lc rows ChartBuilder.name_asc
  = ChartBuilder.applySorting lc rows ChartBuilder.name_asc key /\
  sortByTotals lc rows ChartBuilder.name_desc
  = ChartBuilder.applySorting lc rows ChartBuilder.name_desc key /\
  sortByTotals lc rows ChartBuilder.original = rows.
Proof.
  intros Hrows.
  assert (Heq : forall order, sortByTotals lc rows order = by_total lc order rows).
  { intros order. rewrite sortByTotals_by_total. apply map_id_on.
    intros e He. apply without_total_id, Hrows. by rewrite by_total_perm in He. }
  split_and!.
  - intros order. rewrite Heq. apply by_total_perm.
  - rewrite Heq. apply Sorted_StronglySorted; [intros a b c; lia|].
    eapply Sorted_weaken; [|apply sort_sorted].
    + intros a b. unfold in_order. lia.
    + intros a b. simpl. lia.
  - rewrite Heq. apply Sorted_StronglySorted; [intros a b c; lia|].
    eapply Sorted_weaken; [|apply sort_sorted].
    + intros a b. unfold in_order. lia.
    + intros a b. simpl. lia.
  - by rewrite Heq.
  - by rewrite Heq.
  - by rewrite Heq.
Qed.

Section Categories.
Variable Date_toString : option Z -> string.
Local Abbreviation allCategories := (Builder.allCategories Date_toString).
Local Abbreviation String_ := (Analytics.String_ Date_toString).

(** X15. The categories of a dimension are strictly ascending in code-unit
    order, so each occurs once; for a dimension with a name they are
    exactly the strings [String(row[dimension] || 'N/A')] of the rows, and
    without a dimension name there are none. *)
Theorem allCategories_sorted_complete (dimension : string) (data : list RawRow) :
  StronglySorted (fun x y => String.ltb x y = true) (allCategories dimension data) /\
  (dimension = EmptyString -> allCategories dimension data = []) /\
  (dimension <> EmptyString ->
   forall s, s ∈ allCategories dimension data <->
     exists row, row ∈ data /\
       s = String_ (or_ (get row dimension) (VStr "N/A"))).
Proof.
  unfold Builder.allCategories. split_and!.
  - destruct (negb (nonempty dimension) || Nat.eqb (length data) 0); [constructor|].
    apply Sorted_strict; [apply sort_sorted, default_compare_consistent|].
    rewrite sort_perm. apply Set_from_NoDup.
  - by intros ->.
  - intros Hd%nonempty_true s. rewrite Hd. cbn [negb orb].
    destruct (Nat.eqb_spec (length data) 0) as [Hlen|Hlen].
    + apply nil_length_inv in Hlen as ->.
      split; [by intros ?%elem_of_nil | by intros (? & ?%elem_of_nil & _)].
    + rewrite sort_elem_of, Set_from_elem_of, list_elem_of_In, in_map_iff.
      setoid_rewrite <- list_elem_of_In. naive_solver.
Qed.

End Categories.

(** X16. Toggling a section twice gives back the set of open sections;
    one toggle flips the section and leaves the others as they are. *)
Theorem toggleSection_twice (openSections : gset string) (section : string) :
  toggleSection (toggleSection openSections section) section = openSections /\
  (section ∈ toggleSection openSections section <-> section ∉ openSections) /\
  (forall other, other <> section ->
     other ∈ toggleSection openSections section <-> other ∈ openSections).
Proof.
  unfold toggleSection. split_and!.
  - destruct (decide (section ∈ openSections)) as [Hin|Hnot].
    + rewrite (bool_decide_eq_true_2 _ Hin).
      rewrite bool_decide_eq_false_2 by set_solver.
      apply set_eq. intros x. destruct (decide (x = section)); set_solver.
    + rewrite (bool_decide_eq_false_2 _ Hnot).
      rewrite bool_decide_eq_true_2 by set_solver.
      apply set_eq. intros x. set_solver.
  - destruct (decide (section ∈ openSections)) as [Hin|Hnot].
    + rewrite (bool_decide_eq_true_2 _ Hin). set_solver.
    + rewrite (bool_decide_eq_false_2 _ Hnot). set_solver.
  - intros other Hne.
    destruct (decide (section ∈ openSections)) as [Hin|Hnot].
    + rewrite (bool_decide_eq_true_2 _ Hin). set_solver.
    + rewrite (bool_decide_eq_false_2 _ Hnot). set_solver.
Qed.

Lemma filter_not_cat (l : list string) (cat : string) :
  cat ∉ l -> List.filter (fun c => negb (String.eqb c cat)) l = l.
Proof.
  induction l as [|c l IH]; simpl; [done|]. intros Hnot.
  destruct (String.eqb_spec c cat) as [->|Hne]; simpl.
  - exfalso. apply Hnot. left.
  - rewrite IH; [done|]. set_solver.
Qed.

(** X17. Toggling a category flips whether it is selected and leaves the
    other categories as they are; a selection without duplicates stays
    without duplicates, and selecting a category and then deselecting it
    gives back the selection. *)
Theorem handleCategoryToggle_flips (categoryFilter : list string) (cat : string) :
  (cat ∈ handleCategoryToggle categoryFilter cat <-> cat ∉ categoryFilter) /\
  (forall c, c <> cat ->
     c ∈ handleCategoryToggle categoryFilter cat <-> c ∈ categoryFilter) /\
  (NoDup categoryFilter -> NoDup (handleCategoryToggle categoryFilter cat)) /\
  (cat ∉ categoryFilter ->
   handleCategoryToggle (handleCategoryToggle categoryFilter cat) cat = categoryFilter).
Proof.
  unfold handleCategoryToggle. split_and!.
  - case_bool_decide as Hin.
    + rewrite elem_of_List_filter, String.eqb_refl. simpl. naive_solver.
    + set_solver.
  - intros c Hne. case_bool_decide as Hin.
    + rewrite elem_of_List_filter. apply String.eqb_neq in Hne. rewrite Hne.
      simpl. naive_solver.
    + set_solver.
  - intros Hnd. case_bool_decide as Hin.
    + by apply List_filter_NoDup.
    + apply NoDup_app. split_and!; [done | set_solver | apply NoDup_singleton].
  - intros Hnot. rewrite (bool_decide_eq_false_2 _ Hnot).
    rewrite bool_decide_eq_true_2 by set_solver.
    rewrite List.filter_app. simpl. rewrite String.eqb_refl. simpl.
    rewrite filter_not_cat by done. apply app_nil_r.
Qed.

(** X18. The top-N limit stored in a widget is never below 1. Controls
    that are enabled with a limit of at least 1 are restored as they were
    when the saved widget is opened again; disabled controls come back
    disabled with the defaults, limit 5 and grouping of the others on. *)
Theorem topN_save_restore (c : TopNControls) :
  (forall n, topN (save_topN c) = Some n -> 1 <= n) /\
  (topNEnabled c = true -> 1 <= topNCount c -> init_topN (save_topN c) = c) /\
  (topNEnabled c = true ->
   init_topN (save_topN c) = mkTopN true (Z.max 1 (topNCount c)) (groupOthers c)) /\
  (topNEnabled c = false -> init_topN (save_topN c) = mkTopN false 5 true).
Proof.
  destruct c as [enabled count others]. unfold save_topN, init_topN. simpl.
  split_and!.
  - destruct enabled; intros n [= <-]. lia.
  - intros -> Hc. simpl. rewrite Z.max_r by done.
    destruct (Z.ltb_spec 0 count); [|lia]. by destruct others.
  - intros ->. simpl. destruct (Z.ltb_spec 0 (Z.max 1 count)); [|lia].
    by destruct others.
  - by intros ->.
Qed.

Section SeriesFacts.
Context {SeriesConfig : Type}.
Variable series_id : SeriesConfig -> string.
Local Abbreviation find_series := (Builder.find_series series_id).
Local Abbreviation handleSaveSeries := (Builder.handleSaveSeries series_id).
Local Abbreviation handleDeleteSeries := (Builder.handleDeleteSeries series_id).
Local Abbreviation sync_sortSeries := (Builder.sync_sortSeries series_id).

Lemma find_series_None (l : list SeriesConfig) (sid : string) :
  find_series l sid = None <-> sid ∉ series_id <$> l.
Proof.
  unfold Builder.find_series.
  induction l as [|s l IH]; csimpl; [set_solver|].
  destruct (String.eqb_spec (series_id s) sid) as [<-|Hne].
  - split; [done|]. intros H. exfalso. apply H. left.
  - rewrite IH. set_solver.
Qed.

Lemma replace_series_ids (l : list SeriesConfig) (s : SeriesConfig) :
  series_id <$> List.map (fun x => if String.eqb (series_id x) (series_id s)
                                   then s else x) l
  = series_id <$> l.
Proof.
  induction l as [|x l IH]; csimpl; [done|]. rewrite IH. f_equal.
  by destruct (String.eqb_spec (series_id x) (series_id s)).
Qed.

Lemma replace_series_find (l : list SeriesConfig) (s : SeriesConfig) :
  series_id s ∈ series_id <$> l ->
  find_series (List.map (fun x => if String.eqb (series_id x) (series_id s)
                                  then s else x) l) (series_id s) = Some s.
Proof.
  unfold Builder.find_series.
  induction l as [|x l IH]; csimpl; [by intros ?%elem_of_nil|]. intros Hin.
  destruct (String.eqb_spec (series_id x) (series_id s)) as [Heq|Hne]; simpl.
  - by rewrite String.eqb_refl.
  - apply String.eqb_neq in Hne as Hne'. rewrite Hne'. apply IH. set_solver.
Qed.

Lemma append_series_find (l : list SeriesConfig) (s : SeriesConfig) :
  series_id s ∉ series_id <$> l ->
  find_series (l ++ [s]) (series_id s) = Some s.
Proof.
  unfold Builder.find_series.
  induction l as [|x l IH]; csimpl; intros Hnot.
  - by rewrite String.eqb_refl.
  - destruct (String.eqb_spec (series_id x) (series_id s)) as [Heq|Hne].
    + exfalso. apply Hnot. rewrite Heq. left.
    + apply IH. set_solver.
Qed.


(** X20. After the series effect has run, the sort series is either unset
    or one of the series; in particular, deleting the sort series makes
    the first remaining series the sort series, or unsets it when no
    series remains. *)
Theorem sync_sortSeries_valid (st : SeriesState SeriesConfig) (sid : string) :
  (sortSeriesId (sync_sortSeries st) = EmptyString \/
   is_Some (find_series (series (sync_sortSeries st))
                        (sortSeriesId (sync_sortSeries st)))) /\
  series (sync_sortSeries st) = series st /\
  (sortSeriesId st = sid -> sid <> EmptyString ->
   sortSeriesId (sync_sortSeries (handleDeleteSeries st sid))
   = match series (handleDeleteSeries st sid) with
     | s :: _ => series_id s
     | [] => EmptyString
     end).
Proof.
  split_and!.
  - unfold Builder.sync_sortSeries.
    destruct (nonempty (sortSeriesId st)) eqn:Hne; simpl.
    + case_bool_decide as Hfound; simpl; [by right|].
      destruct (series st) as [|s l]; simpl; [by left|].
      right. unfold Builder.find_series. simpl. by rewrite String.eqb_refl.
    + left. by apply nonempty_false.
  - unfold Builder.sync_sortSeries.
    by destruct (nonempty (sortSeriesId st) && _).
  - intros <- Hne%nonempty_true. unfold Builder.sync_sortSeries. simpl.
    rewrite Hne. simpl.
    assert (Hgone : find_series
                      (List.filter (fun s => negb (String.eqb (series_id s) (sortSeriesId st)))
                                   (series st)) (sortSeriesId st) = None).
    { apply find_series_None.
      intros (s & Hs & [_ Hk]%elem_of_List_filter)%list_elem_of_fmap.
      rewrite <- Hs, String.eqb_refl in Hk. done. }
    rewrite Hgone. rewrite bool_decide_eq_false_2; [done|].
    by intros [? ?].
Qed.

End SeriesFacts.

End BuilderFacts.

(* ===================================================================== *)
(** ** Facts about the dashboards of a project *)
(* ===================================================================== *)

Section DashboardFacts.
Import JS Dashboards.
Context {Widget Other : Type}.
Implicit Types (p q : Project Widget Other) (d : ProjectDashboard Widget)
  (ds : list (ProjectDashboard Widget)) (x : option string).

(** An optional identifier that fits a list of identifiers: one of them,
    or none when the list is empty. *)
Local Abbreviation fits ids x :=
  (match ids with
   | [] => x = None
   | _ :: _ => exists i, i ∈ ids /\ x = Some i
   end).

Lemma active_valid_ids p :
  active_valid p <->
  exists ds, dashboards p = Some ds /\ fits (id <$> ds) (activeDashboardId p).
Proof.
  unfold active_valid. split; intros (ds & Hds & H); exists ds; split; try done.
  - destruct ds as [|d0 ds]; [done|]. destruct H as (d & Hd & ->).
    exists (id d). split; [|done]. apply list_elem_of_fmap. eauto.
  - destruct ds as [|d0 ds]; [done|]. destruct H as (i & Hi & ->).
    apply list_elem_of_fmap in Hi as (d & -> & Hd). eauto.
Qed.

Lemma find_has_id_Some ds x d :
  List.find (has_id x) ds = Some d -> d ∈ ds /\ x = Some (id d).
Proof.
  intros H. apply find_some in H as [Hin Hid]. split; [by apply list_elem_of_In|].
  unfold has_id in Hid. destruct x as [s|]; [|done].
  apply String.eqb_eq in Hid. by rewrite Hid.
Qed.

Lemma find_has_id_ids ds ds' x :
  id <$> ds = id <$> ds' ->
  is_Some (List.find (has_id x) ds) <-> is_Some (List.find (has_id x) ds').
Proof.
  revert ds'. induction ds as [|d ds IH]; intros [|d' ds']; csimpl; try done.
  intros [= Hid Hids]. unfold has_id at 1 3. rewrite Hid.
  destruct x as [s|]; [destruct (String.eqb (id d') s)|]; simpl; try by apply IH.
  split; eauto.
Qed.

Lemma find_has_id_elem ds i :
  i ∈ id <$> ds -> is_Some (List.find (has_id (Some i)) ds).
Proof.
  induction ds as [|d ds IH]; csimpl; [by intros ?%elem_of_nil|]. intros Hin.
  destruct (String.eqb_spec (id d) i) as [|Hne]; [eauto|].
  apply IH. set_solver.
Qed.

Lemma normalize_ids (now : Z) ds :
  id <$> List.map (normalizeDashboard now) ds = id <$> ds.
Proof. induction ds as [|d ds IH]; csimpl; [done|]. by rewrite IH. Qed.

(** The identifier that ensureDashboards chooses for a list of
    dashboards. *)
Local Abbreviation chosen ds x :=
  (match ds%list with
   | [] => None
   | first :: _ =>
       match List.find (has_id x) ds%list with
       | Some _ => x
       | None => Some (id first)
       end
   end).

Lemma chosen_fits ds x : fits (id <$> ds) (chosen ds x).
Proof.
  destruct ds as [|first ds]; [done|].
  destruct (List.find (has_id x) (first :: ds)) as [d|] eqn:Hfind.
  - apply find_has_id_Some in Hfind as [Hd ->].
    exists (id d). split; [|done]. apply list_elem_of_fmap. eauto.
  - exists (id first). split; [left | done].
Qed.

Lemma chosen_ids ds ds' x :
  id <$> ds = id <$> ds' -> chosen ds x = chosen ds' x.
Proof.
  intros Hids. pose proof (find_has_id_ids ds ds' x Hids) as Hfind.
  destruct ds as [|d ds], ds' as [|d' ds']; try done.
  injection Hids as Hid _.
  destruct (List.find (has_id x) (d :: ds)) as [?|],
           (List.find (has_id x) (d' :: ds')) as [?|]; try done.
  - destruct Hfind as [[? ?] _]; [eauto | done].
  - destruct Hfind as [_ [? ?]]; [eauto | done].
  - by rewrite Hid.
Qed.

Lemma chosen_fixed ds x : fits (id <$> ds) x -> chosen ds x = x.
Proof.
  destruct ds as [|first ds]; [done|]. intros (i & Hi & ->).
  by destruct (find_has_id_elem (first :: ds) i Hi) as [d ->].
Qed.

Lemma sync_dashboards p (a : option (ProjectDashboard Widget)) :
  dashboards (syncLegacyWidgets p a) = dashboards p /\
  activeDashboardId (syncLegacyWidgets p a) = activeDashboardId p.
Proof. by destruct a. Qed.

Lemma ensure_cases (now : Z) p :
  (changed (ensureDashboards now p) = false /\ project (ensureDashboards now p) = p /\
   exists l, dashboards p = Some l /\
     ensured_dashboards (ensureDashboards now p) = List.map (normalizeDashboard now) l /\
     (l = [] -> hasLegacyWidgets p = false) /\
     chosen l (activeDashboardId p) = activeDashboardId p) \/
  (changed (ensureDashboards now p) = true /\
   dashboards (project (ensureDashboards now p))
   = Some (ensured_dashboards (ensureDashboards now p)) /\
   activeDashboardId (project (ensureDashboards now p))
   = chosen (ensured_dashboards (ensureDashboards now p)) (activeDashboardId p) /\
   (ensured_dashboards (ensureDashboards now p) = [] ->
    dashboard (project (ensureDashboards now p)) = dashboard p /\
    hasLegacyWidgets p = false)).
Proof.
  unfold ensureDashboards.
  set (nl := List.map (normalizeDashboard now) (default [] (dashboards p))).
  set (migrate := Nat.eqb (length nl) 0 && hasLegacyWidgets p).
  set (ds := if migrate then _ else nl).
  set (active_id := chosen ds (activeDashboardId p)).
  set (ch := negb (bool_decide (is_Some (dashboards p))) || migrate
             || negb (bool_decide (active_id = activeDashboardId p))).
  cbn [changed project ensured_dashboards].
  destruct ch eqn:Hch.
  - right. split; [done|].
    destruct (truthy_id active_id) eqn:Htr.
    + pose proof (sync_dashboards
                    (mkProject (project_id p) (Some ds) (dashboard p) active_id
                               (lastModified p) (other p))
                    (List.find (has_id active_id) ds)) as [-> ->].
      simpl. split_and!; [done | done |].
      intros Hnil. exfalso. unfold active_id in Htr. by rewrite Hnil in Htr.
    + simpl. split_and!; [done | done |]. intros Hnil. split; [done|].
      unfold ds, migrate in Hnil.
      destruct (Nat.eqb (length nl) 0) eqn:Hlen; simpl in *.
      * by destruct (hasLegacyWidgets p).
      * rewrite Hnil in Hlen. done.
  - left. unfold ch in Hch.
    apply orb_false_iff in Hch as [[Hsome Hmig]%orb_false_iff Hact].
    apply negb_false_iff, bool_decide_eq_true in Hsome as [l Hl].
    apply negb_false_iff, bool_decide_eq_true in Hact.
    split_and!; [done | done |]. exists l. split; [done|].
    assert (Hds : ds = List.map (normalizeDashboard now) l).
    { unfold ds. rewrite Hmig. unfold nl. by rewrite Hl. }
    rewrite Hds. split_and!; [done | |].
    + intros ->. unfold migrate, nl in Hmig. rewrite Hl in Hmig. done.
    + transitivity active_id; [|done]. unfold active_id. rewrite Hds.
      apply chosen_ids. by rewrite normalize_ids.
Qed.

Lemma ensure_valid (now : Z) p : active_valid (project (ensureDashboards now p)).
Proof.
  apply active_valid_ids.
  destruct (ensure_cases now p) as [(_ & -> & l & Hl & _ & _ & Hch)
                                   |(_ & Hds & Hact & _)].
  - exists l. split; [done|]. rewrite <- Hch. apply chosen_fits.
  - eexists. split; [done|]. rewrite Hact. apply chosen_fits.
Qed.

Lemma fits_intro (ids : list string) (i : string) : i ∈ ids -> fits ids (Some i).
Proof. destruct ids; [by intros ?%elem_of_nil | eauto]. Qed.

Lemma map_keep_ids (f : ProjectDashboard Widget -> ProjectDashboard Widget) ds :
  (forall d, id (f d) = id d) -> id <$> List.map f ds = id <$> ds.
Proof.
  intros Hf. induction ds as [|d ds IH]; csimpl; [done|]. by rewrite Hf, IH.
Qed.

Lemma ensure_shape (now : Z) p :
  exists ds, dashboards (project (ensureDashboards now p)) = Some ds /\
             fits (id <$> ds) (activeDashboardId (project (ensureDashboards now p))).
Proof. apply active_valid_ids, ensure_valid. Qed.

(** X21. After ensureDashboards and after each of the five dashboard
    operations, the active dashboard of the project is one of its
    dashboards, and a project without dashboards has no active one. *)
Theorem dashboards_active_valid (now : Z) (uuid : string) p
  (dashboardId name : string) (ws : list Widget) :
  active_valid (project (ensureDashboards now p)) /\
  active_valid (fst (addDashboard now uuid p name)) /\
  active_valid (renameDashboard now p dashboardId name) /\
  active_valid (updateDashboardWidgets now p dashboardId ws) /\
  active_valid (setActiveDashboard now p dashboardId) /\
  active_valid (removeDashboard now p dashboardId).
Proof.
  pose proof (ensure_valid now p) as Hvalid.
  destruct (ensure_shape now p) as (ds & Hds & Hfits).
  unfold addDashboard, renameDashboard, updateDashboardWidgets,
    setActiveDashboard, removeDashboard.
  remember (project (ensureDashboards now p)) as n eqn:Hn. clear Hn.
  split_and!.
  - done.
  - apply active_valid_ids. cbn [fst dashboards activeDashboardId].
    rewrite Hds. change (default [] (Some ds)) with ds.
    eexists. split; [done|]. apply fits_intro. rewrite fmap_app. csimpl. set_solver.
  - apply active_valid_ids. cbn [dashboards activeDashboardId].
    rewrite Hds. change (default [] (Some ds)) with ds.
    eexists. split; [done|]. rewrite map_keep_ids; [done|].
    intros d. by destruct (String.eqb (id d) dashboardId).
  - apply active_valid_ids. rewrite Hds. change (default [] (Some ds)) with ds.
    set (ds' := List.map _ ds).
    assert (Hids : id <$> ds' = id <$> ds).
    { apply map_keep_ids. intros d. by destruct (String.eqb (id d) dashboardId). }
    destruct (bool_decide _).
    + match goal with
      | |- context [syncLegacyWidgets ?u ?a] =>
          destruct (sync_dashboards u a) as [-> ->]
      end.
      cbn [dashboards activeDashboardId]. exists ds'. by rewrite Hids.
    + cbn [dashboards activeDashboardId]. exists ds'. by rewrite Hids.
  - rewrite Hds. change (default [] (Some ds)) with ds.
    destruct (List.find _ ds) as [target|] eqn:Hfind; [|done].
    apply find_has_id_Some in Hfind as [Hin [= Hid]].
    apply active_valid_ids. cbn [syncLegacyWidgets dashboards activeDashboardId].
    exists ds. split; [done|].
    apply fits_intro. rewrite Hid. apply list_elem_of_fmap. eauto.
  - apply active_valid_ids. rewrite Hds. change (default [] (Some ds)) with ds.
    set (ds' := List.filter _ ds).
    match goal with
    | |- context [syncLegacyWidgets ?u ?a] =>
        destruct (sync_dashboards u a) as [-> ->]
    end.
    cbn [dashboards activeDashboardId]. exists ds'. split; [done|].
    case_bool_decide as Hact.
    + destruct ds' as [|d ?]; [done|]. apply fits_intro. left.
    + destruct ds as [|d0 ds0]; [done|].
      destruct Hfits as (i & Hi & Hi'). rewrite Hi'. apply fits_intro.
      apply list_elem_of_fmap in Hi as (d & -> & Hd).
      apply list_elem_of_fmap. exists d. split; [done|].
      apply elem_of_List_filter. split; [done|].
      apply negb_true_iff, String.eqb_neq. intros Heq. apply Hact.
      by rewrite Hi', Heq.
Qed.

Lemma ensure_stable (now : Z) q (l : list (ProjectDashboard Widget)) :
  dashboards q = Some l -> (l = [] -> hasLegacyWidgets q = false) ->
  fits (id <$> l) (activeDashboardId q) ->
  changed (ensureDashboards now q) = false /\ project (ensureDashboards now q) = q.
Proof.
  intros Hl Hlegacy Hfits. unfold ensureDashboards. rewrite Hl.
  change (default [] (Some l)) with l. cbv zeta.
  set (nl := List.map (normalizeDashboard now) l).
  assert (Hmig : Nat.eqb (length nl) 0 && hasLegacyWidgets q = false).
  { destruct l as [|d l]; [|done]. simpl. by apply Hlegacy. }
  rewrite Hmig.
  assert (Hch : chosen nl (activeDashboardId q) = activeDashboardId q).
  { rewrite (chosen_ids nl l) by apply normalize_ids. by apply chosen_fixed. }
  rewrite Hch. cbn [changed project].
  rewrite bool_decide_eq_true_2 by eauto.
  rewrite (bool_decide_eq_true_2 (activeDashboardId q = activeDashboardId q)) by done.
  done.
Qed.

(** X22. Normalising is stable: run on the project that ensureDashboards
    returned, at any later time, it reports no change and returns that
    project as it is. *)
Theorem ensureDashboards_stable (now later : Z) p :
  changed (ensureDashboards later (project (ensureDashboards now p))) = false /\
  project (ensureDashboards later (project (ensureDashboards now p)))
  = project (ensureDashboards now p).
Proof.
  destruct (ensure_cases now p) as [(_ & -> & l & Hl & _ & Hleg & Hch)
                                   |(_ & Hds & Hact & Hnil)].
  - apply (ensure_stable later p l); [done | done |].
    rewrite <- Hch. apply chosen_fits.
  - eapply ensure_stable; [exact Hds | |].
    + intros Hempty. destruct (Hnil Hempty) as [Hd Hl].
      unfold hasLegacyWidgets in *. by rewrite Hd.
    + rewrite Hact. apply chosen_fits.
Qed.

Lemma legacy_id_nonempty (s : string) : nonempty (s +:+ "-legacy") = true.
Proof. by destruct s. Qed.

Lemma ensure_migrates (now : Z) p (w : Widget) (ws : list Widget) :
  dashboards p = None \/ dashboards p = Some [] ->
  dashboard p = Some (w :: ws) ->
  let legacy :=
    mkDashboard (project_id p +:+ "-legacy") "Legacy Dashboard"
      "Migrated from classic analytics" (Some (w :: ws))
      (Some (stamp_or (lastModified p) now)) (Some (stamp_or (lastModified p) now)) in
  ensureDashboards now p
  = mkEnsured
      (mkProject (project_id p) (Some [legacy]) (Some (w :: ws))
                 (Some (project_id p +:+ "-legacy")) (lastModified p) (other p))
      [legacy] (Some legacy) true.
Proof.
  intros Hds Hd legacy. unfold ensureDashboards.
  assert (Hnl : List.map (normalizeDashboard now) (default [] (dashboards p)) = [])
    by (by destruct Hds as [-> | ->]).
  rewrite Hnl. unfold hasLegacyWidgets. rewrite Hd. cbn [length Nat.eqb andb].
  fold legacy.
  assert (Hact : chosen [legacy] (activeDashboardId p)
                 = Some (project_id p +:+ "-legacy")).
  { destruct (List.find (has_id (activeDashboardId p)) [legacy]) as [d|] eqn:Hf; [|done].
    apply find_has_id_Some in Hf as [Hin ->].
    apply list_elem_of_singleton in Hin. by subst d. }
  rewrite Hact. rewrite orb_true_r. cbn [orb].
  unfold truthy_id. rewrite legacy_id_nonempty.
  subst legacy. cbn [List.find has_id id]. rewrite String.eqb_refl.
  cbn [syncLegacyWidgets activeDashboardId widgets project_id dashboards
       lastModified other].
  rewrite legacy_id_nonempty. cbn [List.find has_id id].
  by rewrite String.eqb_refl.
Qed.

(** X23. A project that has legacy widgets and no dashboards gets one
    dashboard, named Legacy Dashboard, that holds these widgets and is the
    active one; the change is reported and the legacy widgets stay in
    place. *)
Theorem ensureDashboards_migrates_legacy (now : Z) p (w : Widget) (ws : list Widget) :
  dashboards p = None \/ dashboards p = Some [] ->
  dashboard p = Some (w :: ws) ->
  changed (ensureDashboards now p) = true /\
  (exists legacy,
     ensured_dashboards (ensureDashboards now p) = [legacy] /\
     dashboards (project (ensureDashboards now p)) = Some [legacy] /\
     activeDashboard (ensureDashboards now p) = Some legacy /\
     activeDashboardId (project (ensureDashboards now p)) = Some (id legacy) /\
     id legacy = project_id p +:+ "-legacy" /\
     name legacy = "Legacy Dashboard"%string /\
     widgets legacy = Some (w :: ws)) /\
  dashboard (project (ensureDashboards now p)) = Some (w :: ws).
Proof.
  intros Hds Hd. rewrite (ensure_migrates now p w ws Hds Hd). simpl.
  split_and!; [done | | done]. eexists. by split_and!.
Qed.

(** X24. Removing the only dashboard of a project, which is its active
    one, leaves no dashboard and no active dashboard, and the legacy widget
    list as it was; if that list is not empty, the next ensureDashboards
    turns it into a Legacy Dashboard again. *)
Theorem removeDashboard_last_dashboard (now later : Z) p d :
  dashboards p = Some [d] -> activeDashboardId p = Some (id d) ->
  dashboards (removeDashboard now p (id d)) = Some [] /\
  activeDashboardId (removeDashboard now p (id d)) = None /\
  dashboard (removeDashboard now p (id d)) = dashboard p /\
  (forall (w : Widget) (ws : list Widget), dashboard p = Some (w :: ws) ->
   exists legacy,
     ensured_dashboards (ensureDashboards later (removeDashboard now p (id d)))
     = [legacy] /\
     name legacy = "Legacy Dashboard"%string /\
     widgets legacy = Some (w :: ws)).
Proof.
  intros Hds Hact.
  assert (Hp : project (ensureDashboards now p) = p).
  { apply (ensure_stable now p [d]); [done | done |].
    exists (id d). split; [left | done]. }
  assert (Hq : removeDashboard now p (id d)
               = mkProject (project_id p) (Some []) (dashboard p) None
                           (Some now) (other p)).
  { unfold removeDashboard. rewrite Hp, Hds, Hact. simpl.
    rewrite String.eqb_refl. simpl.
    by rewrite bool_decide_eq_true_2 by done. }
  rewrite Hq. cbn [dashboards activeDashboardId dashboard]. split_and!; try done.
  intros w ws Hd.
  rewrite (ensure_migrates later _ w ws); [|by right|done].
  cbn [ensured_dashboards]. eexists. by split_and!.
Qed.

Lemma find_has_id_map (f : ProjectDashboard Widget -> ProjectDashboard Widget) ds x :
  (forall d, id (f d) = id d) ->
  List.find (has_id x) (List.map f ds) = f <$> List.find (has_id x) ds.
Proof.
  intros Hf. induction ds as [|d ds IH]; simpl; [done|].
  unfold has_id at 1 3. rewrite Hf.
  by destruct x as [s|]; [destruct (String.eqb (id d) s)|].
Qed.

(** X25. After updateDashboardWidgets every dashboard with the given
    identifier holds the new widgets and the other dashboards are as
    ensureDashboards left them; when that identifier is the active one and
    a dashboard has it, the legacy widget list holds the new widgets
    too. *)
Theorem updateDashboardWidgets_lookup (now : Z) p (dashboardId : string)
  (ws : list Widget) :
  (forall ds', dashboards (updateDashboardWidgets now p dashboardId ws) = Some ds' ->
     (forall d, d ∈ ds' -> id d = dashboardId -> widgets d = Some ws) /\
     (forall d, id d <> dashboardId ->
        d ∈ ds' <-> d ∈ default [] (dashboards (project (ensureDashboards now p)))) /\
     id <$> ds' = id <$> default [] (dashboards (project (ensureDashboards now p)))) /\
  (activeDashboardId (project (ensureDashboards now p)) = Some dashboardId ->
   dashboard (updateDashboardWidgets now p dashboardId ws) = Some ws /\
   activeDashboardId (updateDashboardWidgets now p dashboardId ws) = Some dashboardId).
Proof.
  destruct (ensure_shape now p) as (ds & Hds & Hfits).
  unfold updateDashboardWidgets.
  remember (project (ensureDashboards now p)) as n eqn:Hn. clear Hn.
  rewrite Hds. change (default [] (Some ds)) with ds.
  set (f := fun d : ProjectDashboard Widget =>
              if String.eqb (id d) dashboardId
              then mkDashboard (id d) (name d) (description d) (Some ws)
                               (createdAt d) (Some now)
              else d).
  assert (Hf : forall d, id (f d) = id d).
  { intros d. unfold f. by destruct (String.eqb (id d) dashboardId). }
  split.
  - intros ds' Hds'.
    assert (ds' = List.map f ds) as ->.
    { destruct (bool_decide _).
      - match type of Hds' with
        | context [syncLegacyWidgets ?u ?a] =>
            destruct (sync_dashboards u a) as [Hs _]; rewrite Hs in Hds'
        end.
        simpl in Hds'. congruence.
      - simpl in Hds'. congruence. }
    split_and!.
    + intros d Hd Hid. rewrite list_elem_of_In, in_map_iff in Hd.
      destruct Hd as (d0 & <- & _). unfold f in *.
      destruct (String.eqb_spec (id d0) dashboardId); [done | congruence].
    + intros d Hne. rewrite list_elem_of_In, in_map_iff.
      setoid_rewrite <- list_elem_of_In. split.
      * intros (d0 & <- & Hd0). unfold f in *.
        destruct (String.eqb_spec (id d0) dashboardId); [done | done].
      * intros Hd. exists d. split; [|done]. unfold f.
        by destruct (String.eqb_spec (id d) dashboardId).
    + by apply map_keep_ids.
  - intros Hact. rewrite bool_decide_eq_true_2 by done.
    rewrite find_has_id_map by done.
    destruct ds as [|d0 ds0]; [cbn in Hfits; congruence|].
    destruct Hfits as (i & Hi & Hi'). rewrite Hact in Hi'. injection Hi' as <-.
    destruct (find_has_id_elem (d0 :: ds0) dashboardId Hi) as [target Ht].
    rewrite Ht. cbn [fmap option_fmap option_map syncLegacyWidgets dashboard
                     activeDashboardId].
    apply find_has_id_Some in Ht as [_ [= Hid]].
    unfold f. rewrite <- Hid, String.eqb_refl. by rewrite Hact.
Qed.

(** X26. Renaming with a name that is blank keeps every name; otherwise
    the dashboards with the given identifier get the trimmed name. In both
    cases the identifiers, widgets and the active dashboard stay as
    ensureDashboards left them. *)
Theorem renameDashboard_names (now : Z) p (dashboardId newName : string) :
  let normalized := default [] (dashboards (project (ensureDashboards now p))) in
  exists ds',
    dashboards (renameDashboard now p dashboardId newName) = Some ds' /\
    id <$> ds' = id <$> normalized /\
    widgets <$> ds' = widgets <$> normalized /\
    activeDashboardId (renameDashboard now p dashboardId newName)
    = activeDashboardId (project (ensureDashboards now p)) /\
    (Text.trim newName = EmptyString -> name <$> ds' = name <$> normalized) /\
    (Text.trim newName <> EmptyString ->
     forall d, d ∈ ds' -> id d = dashboardId -> name d = Text.trim newName).
Proof.
  intros normalized. unfold renameDashboard. cbn [dashboards activeDashboardId].
  fold normalized. eexists. split; [done|].
  split_and!; try done.
  - apply map_keep_ids. intros d. by destruct (String.eqb (id d) dashboardId).
  - induction normalized as [|d l IH]; csimpl; [done|]. rewrite IH. f_equal.
    by destruct (String.eqb (id d) dashboardId).
  - intros Hblank. rewrite Hblank. simpl.
    induction normalized as [|d l IH]; csimpl; [done|]. rewrite IH. f_equal.
    destruct (String.eqb (id d) dashboardId); [|done]. by destruct d.
  - intros Hname%nonempty_true d Hd Hid. rewrite Hname in Hd.
    rewrite list_elem_of_In, in_map_iff in Hd.
    destruct Hd as (d0 & <- & _).
    destruct (String.eqb_spec (id d0) dashboardId); [done | congruence].
Qed.

(** X27. addDashboard puts the new dashboard last and makes it the active
    one; it has no widgets, so the legacy widget list is emptied, and its
    name is never empty: the trimmed name, or Untitled Dashboard when the
    name is blank. Normalising the result changes nothing. *)
Theorem addDashboard_appends (now later : Z) (uuid : string) p (newName : string) :
  let normalized := default [] (dashboards (project (ensureDashboards now p))) in
  dashboards (fst (addDashboard now uuid p newName))
  = Some (normalized ++ [snd (addDashboard now uuid p newName)]) /\
  activeDashboardId (fst (addDashboard now uuid p newName)) = Some uuid /\
  id (snd (addDashboard now uuid p newName)) = uuid /\
  widgets (snd (addDashboard now uuid p newName)) = Some [] /\
  dashboard (fst (addDashboard now uuid p newName)) = Some [] /\
  name (snd (addDashboard now uuid p newName)) <> EmptyString /\
  (Text.trim newName <> EmptyString ->
   name (snd (addDashboard now uuid p newName)) = Text.trim newName) /\
  (Text.trim newName = EmptyString ->
   name (snd (addDashboard now uuid p newName)) = "Untitled Dashboard"%string) /\
  changed (ensureDashboards later (fst (addDashboard now uuid p newName))) = false.
Proof.
  intros normalized. unfold addDashboard, createDashboard.
  remember (project (ensureDashboards now p)) as n eqn:Hn. clear Hn.
  cbn [fst snd dashboards activeDashboardId id widgets dashboard name].
  fold normalized.
  split_and!; try done.
  - destruct (nonempty (Text.trim newName)) eqn:Hn; [by apply nonempty_true | done].
  - by intros ->%nonempty_true.
  - by intros ->.
  - eapply proj1, ensure_stable; [done | |].
    + intros Hnil. by destruct normalized.
    + cbn [activeDashboardId]. apply fits_intro. rewrite fmap_app. csimpl. set_solver.
Qed.

End DashboardFacts.

(* ===================================================================== *)
(** ** The further functions on the sample host *)
(* ===================================================================== *)

Example sample_iso :
  Samples.toISOString 1705276800000 = "2024-01-15T00:00:00.000Z"%string /\
  Samples.toISOString 951782399999 = "2000-02-28T23:59:59.999Z"%string /\
  Panel.normalizeDateInputValue SampleHost.Date_parse SampleHost.Date_toString
    Samples.toISOString "2024-01-15" = "2024-01-15"%string /\
  Text.trim "  two words  " = "two words"%string /\
  Text.trim "   " = EmptyString.
Proof. repeat split; vm_compute; reflexivity. Qed.

Example sample_column_types :
  Samples.inferColumnType "day" Samples.posts = Analytics.date /\
  Samples.inferColumnType "channel" Samples.posts = Analytics.text /\
  Samples.inferColumnType "likes" [Samples.liked 3; Samples.liked 0] = Analytics.number /\
  Samples.inferColumnType "views" Samples.posts = Analytics.text.
Proof. repeat split; vm_compute; reflexivity. Qed.

Lemma filteredData_filter_order_witness :
  [SampleHost.january; SampleHost.facebook] ≡ₚ [SampleHost.facebook; SampleHost.january] /\
  Samples.filteredData Samples.posts [SampleHost.january; SampleHost.facebook]
  = Samples.filteredData Samples.posts [SampleHost.facebook; SampleHost.january].
Proof.
  assert (H : [SampleHost.january; SampleHost.facebook]
              ≡ₚ [SampleHost.facebook; SampleHost.january]) by apply Permutation_swap.
  split; [exact H|].
  exact (filteredData_filter_order SampleHost.Date_parse SampleHost.Date_toString
           SampleHost.toLowerCase SampleHost.LocalTZA Samples.posts _ _ H).
Defined.

Example filteredData_sample :
  Samples.filteredData Samples.posts [SampleHost.january; SampleHost.facebook]
  = [SampleHost.post "facebook" "2024-01-20"].
Proof. vm_compute. reflexivity. Qed.

Lemma getUniqueValues_entries_match_witness :
  Analytics.column SampleHost.facebook <> EmptyString /\
  Analytics.dataType SampleHost.facebook <> Some Analytics.date /\
  Analytics.value SampleHost.facebook
    ∈ SampleHost.getUniqueValues Samples.posts (Analytics.column SampleHost.facebook) /\
  exists row, row ∈ Samples.posts /\
    SampleHost.matchesFilterCondition row SampleHost.facebook = true /\
    row ∈ Samples.filteredData Samples.posts [SampleHost.facebook].
Proof.
  assert (Hc : Analytics.column SampleHost.facebook <> EmptyString) by discriminate.
  assert (Ht : Analytics.dataType SampleHost.facebook <> Some Analytics.date)
    by discriminate.
  assert (Hv : Analytics.value SampleHost.facebook
                 ∈ SampleHost.getUniqueValues Samples.posts
                     (Analytics.column SampleHost.facebook)).
  { vm_compute. apply list_elem_of_here. }
  split; [exact Hc|]. split; [exact Ht|]. split; [exact Hv|].
  exact (getUniqueValues_entries_match SampleHost.Date_parse SampleHost.Date_toString
           SampleHost.toLowerCase SampleHost.LocalTZA Samples.posts
           SampleHost.facebook Hc Ht Hv).
Defined.

Lemma getUniqueValues_row_order_witness :
  (forall row, row ∈ Samples.posts <-> row ∈ rev Samples.posts ++ Samples.posts) /\
  SampleHost.getUniqueValues Samples.posts "channel"
  = SampleHost.getUniqueValues (rev Samples.posts ++ Samples.posts) "channel".
Proof.
  assert (H : forall row, row ∈ Samples.posts <-> row ∈ rev Samples.posts ++ Samples.posts).
  { intros row. rewrite elem_of_app, !list_elem_of_In, <- in_rev. tauto. }
  split; [exact H|].
  exact (getUniqueValues_row_order SampleHost.Date_toString _ _ "channel" H).
Defined.

Lemma inferColumnType_blank_column_witness :
  (forall row, row ∈ Samples.posts -> JS.blank (JS.get row "views") = true) /\
  Samples.inferColumnType "views" Samples.posts = Analytics.text.
Proof.
  assert (H : forall row, row ∈ Samples.posts -> JS.blank (JS.get row "views") = true).
  { intros row Hrow. unfold Samples.posts in Hrow.
    repeat (apply elem_of_cons in Hrow as [->|Hrow]; [vm_compute; reflexivity|]).
    by apply elem_of_nil in Hrow. }
  split; [exact H|].
  exact (inferColumnType_blank_column SampleHost.Date_parse Samples.Number_isNaN
           "views" Samples.posts H).
Defined.

Lemma inferColumnType_sample_window_witness :
  (Panel.SAMPLE_SIZE
   <= length (List.filter Panel.present
                (List.map (fun row : JS.RawRow => JS.get row "likes")
                          (replicate 50 (Samples.liked 7)))))%nat /\
  Samples.inferColumnType "likes" (replicate 50 (Samples.liked 7) ++ Samples.posts)
  = Samples.inferColumnType "likes" (replicate 50 (Samples.liked 7)).
Proof.
  assert (H : (Panel.SAMPLE_SIZE
               <= length (List.filter Panel.present
                            (List.map (fun row : JS.RawRow => JS.get row "likes")
                                      (replicate 50 (Samples.liked 7)))))%nat).
  { vm_compute. lia. }
  split; [exact H|].
  exact (inferColumnType_sample_window SampleHost.Date_parse Samples.Number_isNaN
           "likes" _ Samples.posts H).
Defined.

Lemma inferColumnType_numbers_witness :
  List.filter Panel.present
    (List.map (fun row : JS.RawRow => JS.get row "likes")
              [Samples.liked 3; Samples.liked 0]) <> [] /\
  Samples.inferColumnType "likes" [Samples.liked 3; Samples.liked 0] = Analytics.number.
Proof.
  assert (H1 : List.filter Panel.present
                 (List.map (fun row : JS.RawRow => JS.get row "likes")
                           [Samples.liked 3; Samples.liked 0]) <> [])
    by (vm_compute; discriminate).
  split; [exact H1|].
  apply (inferColumnType_numbers SampleHost.Date_parse Samples.Number_isNaN
           "likes" [Samples.liked 3; Samples.liked 0] H1).
  vm_compute. repeat constructor; eauto.
Defined.

Lemma panel_columns_witness :
  Samples.reachable
    (Samples.run
       (Samples.run (Samples.run Samples.empty_panel (Panel.OpAdd "u1" "day" ""))
                    (Panel.OpAdd "u2" "channel" "Facebook"))
       (Panel.OpAdd "u3" "day" "2024-01-15")) /\
  NoDup (Analytics.column <$>
         Panel.filters
           (Samples.run
              (Samples.run (Samples.run Samples.empty_panel (Panel.OpAdd "u1" "day" ""))
                           (Panel.OpAdd "u2" "channel" "Facebook"))
              (Panel.OpAdd "u3" "day" "2024-01-15"))).
Proof.
  assert (H : Samples.reachable
                (Samples.run
                   (Samples.run (Samples.run Samples.empty_panel (Panel.OpAdd "u1" "day" ""))
                                (Panel.OpAdd "u2" "channel" "Facebook"))
                   (Panel.OpAdd "u3" "day" "2024-01-15"))).
  { repeat apply Panel.reachable_step. apply Panel.reachable_init. }
  split; [exact H|].
  exact (proj2 (panel_columns SampleHost.Date_parse SampleHost.Date_toString
                  Samples.toISOString Samples.getColumnType _ H)).
Defined.

(** Three clicks on the sample host: a date filter without bounds, a
    channel filter, and a chart value for the date column that has a
    filter already, which becomes that filter's start. *)
Example panel_sample :
  Panel.filters
    (Samples.run
       (Samples.run (Samples.run Samples.empty_panel (Panel.OpAdd "u1" "day" ""))
                    (Panel.OpAdd "u2" "channel" "Facebook"))
       (Panel.OpAdd "u3" "day" "2024-01-15"))
  = [Analytics.mkFilter "u1" "day" "2024-01-15" (Some ""%string) (Some Analytics.date);
     Analytics.mkFilter "u2" "channel" "Facebook" None (Some Analytics.text)].
Proof. vm_compute. reflexivity. Qed.

Lemma addFilter_date_column_witness :
  "day"%string <> EmptyString /\
  ("day"%string ∉ Analytics.column <$> Panel.filters Samples.empty_panel) /\
  Samples.getColumnType "day" = Analytics.date /\
  Samples.filteredData Samples.posts
    (Panel.filters (Samples.addFilter "u1" Samples.empty_panel "day" ""))
  = List.filter
      (fun row => bool_decide (is_Some (SampleHost.toDateValue (JS.get row "day"))))
      (Samples.filteredData Samples.posts (Panel.filters Samples.empty_panel)).
Proof.
  assert (H1 : "day"%string <> EmptyString) by discriminate.
  assert (H2 : "day"%string ∉ Analytics.column <$> Panel.filters Samples.empty_panel)
    by apply not_elem_of_nil.
  assert (H3 : Samples.getColumnType "day" = Analytics.date) by reflexivity.
  split; [exact H1|]. split; [exact H2|]. split; [exact H3|].
  exact (addFilter_date_column SampleHost.Date_parse SampleHost.Date_toString
           Samples.toISOString Samples.getColumnType
           SampleHost.toLowerCase SampleHost.LocalTZA "u1" Samples.empty_panel "day" Samples.posts H1 H2 H3).
Defined.

Lemma addFilter_categorical_column_witness :
  "channel"%string <> EmptyString /\
  ("channel"%string ∉ Analytics.column <$> Panel.filters Samples.empty_panel) /\
  Samples.getColumnType "channel" <> Analytics.date /\
  "Facebook"%string <> EmptyString /\
  Samples.filteredData Samples.posts
    (Panel.filters (Samples.addFilter "u2" Samples.empty_panel "channel" "Facebook"))
  = List.filter
      (fun row =>
         String.eqb
           (SampleHost.toLowerCase
              (Analytics.String_ SampleHost.Date_toString
                 (JS.nullish (JS.get row "channel") (JS.VStr ""))))
           (SampleHost.toLowerCase "Facebook"))
      (Samples.filteredData Samples.posts (Panel.filters Samples.empty_panel)).
Proof.
  assert (H1 : "channel"%string <> EmptyString) by discriminate.
  assert (H2 : "channel"%string ∉ Analytics.column <$> Panel.filters Samples.empty_panel)
    by apply not_elem_of_nil.
  assert (H3 : Samples.getColumnType "channel" <> Analytics.date) by discriminate.
  assert (H4 : "Facebook"%string <> EmptyString) by discriminate.
  split; [exact H1|]. split; [exact H2|]. split; [exact H3|]. split; [exact H4|].
  exact (addFilter_categorical_column SampleHost.Date_parse SampleHost.Date_toString
           Samples.toISOString Samples.getColumnType
           SampleHost.toLowerCase SampleHost.LocalTZA "u2" Samples.empty_panel "channel" "Facebook"
           Samples.posts H1 H2 H3 H4).
Defined.

Lemma removeFilter_addFilter_witness :
  "channel"%string <> EmptyString /\
  ("channel"%string ∉ Analytics.column <$> Panel.filters Samples.empty_panel) /\
  ("u2"%string ∉ Analytics.id <$> Panel.filters Samples.empty_panel) /\
  Panel.filters
    (Panel.removeFilter
       (Samples.addFilter "u2" Samples.empty_panel "channel" "Facebook") "u2")
  = Panel.filters Samples.empty_panel.
Proof.
  assert (H1 : "channel"%string <> EmptyString) by discriminate.
  assert (H2 : "channel"%string ∉ Analytics.column <$> Panel.filters Samples.empty_panel)
    by apply not_elem_of_nil.
  assert (H3 : "u2"%string ∉ Analytics.id <$> Panel.filters Samples.empty_panel)
    by apply not_elem_of_nil.
  split; [exact H1|]. split; [exact H2|]. split; [exact H3|].
  exact (removeFilter_addFilter SampleHost.Date_parse SampleHost.Date_toString
           Samples.toISOString Samples.getColumnType "u2" Samples.empty_panel
           "channel" "Facebook" H1 H2 H3).
Defined.

Lemma sortByTotals_orders_witness :
  (forall e, e ∈ Samples.entries ->
     ChartBuilder.fields e !! "__total"%string = None) /\
  Builder.sortByTotals SampleHost.localeCompare Samples.entries ChartBuilder.original
  = Samples.entries.
Proof.
  assert (H : forall e, e ∈ Samples.entries ->
                ChartBuilder.fields e !! "__total"%string = None).
  { intros e He. unfold Samples.entries in He.
    repeat (apply elem_of_cons in He as [->|He]; [vm_compute; reflexivity|]).
    by apply elem_of_nil in He. }
  split; [exact H|].
  exact (proj2 (proj2 (proj2 (proj2 (proj2
           (sortByTotals_orders SampleHost.localeCompare Samples.entries "pos" H)))))).
Defined.

Example sortByTotals_sample :
  ChartBuilder.name <$>
    Builder.sortByTotals SampleHost.localeCompare Samples.entries ChartBuilder.value_desc
  = ["fb"; "tw"; "ig"]%string /\
  Builder.row_total <$> Samples.entries = [3; 5; 0].
Proof. split; vm_compute; reflexivity. Qed.

Lemma ensureDashboards_migrates_legacy_witness :
  (Dashboards.dashboards Samples.legacy_project = None \/
   Dashboards.dashboards Samples.legacy_project = Some []) /\
  Dashboards.dashboard Samples.legacy_project = Some ["chart-a"; "chart-b"]%string /\
  Dashboards.changed (Dashboards.ensureDashboards 1700000000001 Samples.legacy_project)
  = true.
Proof.
  assert (H1 : Dashboards.dashboards Samples.legacy_project = None \/
               Dashboards.dashboards Samples.legacy_project = Some [])
    by (left; reflexivity).
  assert (H2 : Dashboards.dashboard Samples.legacy_project
               = Some ["chart-a"; "chart-b"]%string) by reflexivity.
  split; [exact H1|]. split; [exact H2|].
  exact (proj1 (ensureDashboards_migrates_legacy 1700000000001 Samples.legacy_project
                  "chart-a"%string ["chart-b"%string] H1 H2)).
Defined.

Lemma removeDashboard_last_dashboard_witness :
  Dashboards.dashboards Samples.one_dashboard_project = Some [Samples.overview] /\
  Dashboards.activeDashboardId Samples.one_dashboard_project
  = Some (Dashboards.id Samples.overview) /\
  Dashboards.dashboards
    (Dashboards.removeDashboard 1700000000001 Samples.one_dashboard_project
       (Dashboards.id Samples.overview)) = Some [] /\
  Dashboards.dashboard
    (Dashboards.removeDashboard 1700000000001 Samples.one_dashboard_project
       (Dashboards.id Samples.overview))
  = Dashboards.dashboard Samples.one_dashboard_project.
Proof.
  assert (H1 : Dashboards.dashboards Samples.one_dashboard_project
               = Some [Samples.overview]) by reflexivity.
  assert (H2 : Dashboards.activeDashboardId Samples.one_dashboard_project
               = Some (Dashboards.id Samples.overview)) by reflexivity.
  split; [exact H1|]. split; [exact H2|].
  destruct (removeDashboard_last_dashboard 1700000000001 1700000000002
              Samples.one_dashboard_project Samples.overview H1 H2)
    as (H3 & _ & H4 & _).
  split; [exact H3 | exact H4].
Defined.

(** The sample project after its only dashboard is removed and the
    project is normalised again. *)
Example removeDashboard_sample :
  Dashboards.name <$>
    Dashboards.ensured_dashboards
      (Dashboards.ensureDashboards 1700000000002
         (Dashboards.removeDashboard 1700000000001 Samples.one_dashboard_project "d1"))
  = ["Legacy Dashboard"%string] /\
  Dashboards.name <$>
    default []
      (Dashboards.dashboards
         (fst (Dashboards.addDashboard 1700000000001 "d2"
                 Samples.one_dashboard_project "  Campaign  ")))
  = ["Overview"; "Campaign"]%string.
Proof. split; vm_compute; reflexivity. Qed.
